(** * lightning-template: configuration glue

    A shallow embedding of the two utility modules of the repository,

    - [source/utils/instantiators.py] ([instantiate_callbacks],
      [instantiate_loggers]) and
    - [source/utils/rich_utils.py] ([print_config_tree], [enforce_tags]),

    together with the properties of their specification.

    Python values are modelled by the inductive type [node]; an OmegaConf
    [DictConfig] is an insertion-ordered association list with unique keys,
    whose values may be missing (['???']) or interpolations that cannot be
    resolved.  Strings are sequences of code points below 256.  Logging, the
    console prompt and file output are recorded as a trace of [event]s; a
    raised exception is the [Raise] outcome. *)

From Stdlib Require Import List String Ascii Bool ZArith Permutation.
Import ListNotations.
Open Scope string_scope.
Open Scope list_scope.

(** ** Python values and strings *)

Module Py.

(** A configuration node: [None], a scalar, a [ListConfig] or a
    [DictConfig], as OmegaConf hands them to the code, and the two kinds of
    value node that it stores but never hands out: a mandatory value that
    is still missing (['???']) and an interpolation that cannot be
    resolved. *)
#[warnings="-register-all"]
Inductive node : Type :=
| NNone
| NBool (b : bool)
| NInt (z : Z)
| NStr (s : string)
| NList (items : list node)
| NDict (fields : list (string * node))
| NMissing
| NUnresolved.

(** The content of a [DictConfig], in insertion order. *)
Definition dict : Type := list (string * node).

(** An argument of the instantiators: a configuration node, or a plain
    Python container that is not an OmegaConf node. *)
Inductive pyobj : Type :=
| Node (n : node)
| PyDict (d : list (string * node))
| PyList (l : list node).

(** Python truth value ([bool(x)], as tested by [not x]). A value node
    that holds ['???'] or a failing interpolation is an object without
    length: Python finds it true. *)
Definition truthy (n : node) : bool :=
  match n with
  | NNone => false
  | NBool b => b
  | NInt z => negb (Z.eqb z 0)
  | NStr s => negb (String.eqb s "")
  | NList items => negb (Nat.eqb (List.length items) 0)
  | NDict fields => negb (Nat.eqb (List.length fields) 0)
  | NMissing => true
  | NUnresolved => true
  end.

(** A stored value that an access hands out: neither missing nor a failing
    interpolation. *)
Definition readable (n : node) : bool :=
  match n with
  | NMissing => false
  | NUnresolved => false
  | _ => true
  end.

Definition truthy_obj (x : pyobj) : bool :=
  match x with
  | Node n => truthy n
  | PyDict d => negb (Nat.eqb (List.length d) 0)
  | PyList l => negb (Nat.eqb (List.length l) 0)
  end.

(** [isinstance(x, DictConfig)] *)
Definition is_DictConfig (n : node) : bool :=
  match n with
  | NDict _ => true
  | _ => false
  end.

Definition isinstance_DictConfig (x : pyobj) : bool :=
  match x with
  | Node n => is_DictConfig n
  | _ => false
  end.

(** *** Ordered dictionaries *)

Fixpoint lookup (key : string) (d : dict) : option node :=
  match d with
  | [] => None
  | (k, v) :: rest => if String.eqb key k then Some v else lookup key rest
  end.

(** [key in d]. OmegaConf does not count a key whose value is still
    missing; it counts one whose interpolation fails. *)
Definition contains (key : string) (d : dict) : bool :=
  match lookup key d with
  | Some NMissing => false
  | Some _ => true
  | None => false
  end.

(** What [d.get(key)] finds: the value, or [None] when the key is absent or
    its value is missing. A failing interpolation is handed on as it is:
    the call raises on it, see [get_method]. *)
Definition dict_get (key : string) (d : dict) : node :=
  match lookup key d with
  | Some NMissing => NNone
  | Some v => v
  | None => NNone
  end.

(** [d[key] = v]: an existing key keeps its position, a new key goes
    last. *)
Fixpoint assign (key : string) (v : node) (d : dict) : dict :=
  match d with
  | [] => [(key, v)]
  | (k, w) :: rest =>
      if String.eqb key k then (k, v) :: rest
      else (k, w) :: assign key v rest
  end.

(** Iteration over a [DictConfig] yields its keys in insertion order,
    those with a missing value included. *)
Definition keys (d : dict) : list string := map fst d.

(** An interpolation that cannot be resolved sits in the node, at any
    depth. *)
Fixpoint unresolved_inside (n : node) : bool :=
  match n with
  | NUnresolved => true
  | NList elements => existsb unresolved_inside elements
  | NDict fields =>
      existsb (fun entry => unresolved_inside (snd entry)) fields
  | _ => false
  end.

(** Every value of the mapping can be handed out. *)
Definition all_readable (d : dict) : bool :=
  forallb (fun entry => readable (snd entry)) d.

(** [x in l] for a list of strings. *)
Fixpoint mem (x : string) (l : list string) : bool :=
  match l with
  | [] => false
  | y :: rest => String.eqb x y || mem x rest
  end.

(** *** Strings *)

(** Characters that [str.isspace] accepts, among the code points below
    256: TAB..CR, FS..US, SPACE, NEL and NBSP. *)
Definition is_space (c : ascii) : bool :=
  let n := nat_of_ascii c in
  (((9 <=? n) && (n <=? 13)) || ((28 <=? n) && (n <=? 32))
   || (n =? 133) || (n =? 160))%nat.

Fixpoint lstrip (s : string) : string :=
  match s with
  | EmptyString => EmptyString
  | String c rest => if is_space c then lstrip rest else s
  end.

Fixpoint rstrip (s : string) : string :=
  match s with
  | EmptyString => EmptyString
  | String c rest =>
      match rstrip rest with
      | EmptyString => if is_space c then EmptyString else String c EmptyString
      | kept => String c kept
      end
  end.

(** [s.strip()] *)
Definition strip (s : string) : string := rstrip (lstrip s).

(** [s.split(sep)] for a one-character separator: always at least one
    piece, and [n] separators give [n + 1] pieces. *)
Fixpoint split (sep : ascii) (s : string) : list string :=
  match s with
  | EmptyString => [EmptyString]
  | String c rest =>
      if Ascii.eqb c sep then EmptyString :: split sep rest
      else
        match split sep rest with
        | [] => [String c EmptyString]
        | piece :: pieces => String c piece :: pieces
        end
  end.

(** The string holds the character NUL. *)
Fixpoint has_nul (s : string) : bool :=
  match s with
  | EmptyString => false
  | String c rest => Ascii.eqb c zero || has_nul rest
  end.

(** A string made of whitespace only (the empty string included). *)
Fixpoint all_space (s : string) : bool :=
  match s with
  | EmptyString => true
  | String c rest => is_space c && all_space rest
  end.

End Py.

(** ** Effects: exceptions, logging, console and files *)

Module Eff.
Import Py.

(** [pathlib.Path(parent, name)] *)
Inductive path : Type :=
| Path (parent : string) (name : string).

(** The exceptions the code raises itself, those of the accesses to a
    configuration node ([KeyValidationError], [MissingMandatoryValue] and
    [InterpolationKeyError] are OmegaConf's), and those of the
    collaborators. *)
Inductive exn : Type :=
| TypeError (msg : string)
| ValueError (msg : string)
| AttributeError (attr : string)
| KeyError (key : string)
| KeyValidationError (key : string)
| MissingMandatoryValue (key : string)
| InterpolationKeyError (key : string)
| OSError (file : path)
| InstantiationException (msg : string).

(** The class of an exception, without its message. *)
Inductive exn_class : Type :=
| CTypeError | CValueError | CAttributeError | CKeyError
| CKeyValidationError | CMissingMandatoryValue | CInterpolationKeyError
| COSError | CInstantiationException.

Definition class_of (e : exn) : exn_class :=
  match e with
  | TypeError _ => CTypeError
  | ValueError _ => CValueError
  | AttributeError _ => CAttributeError
  | KeyError _ => CKeyError
  | KeyValidationError _ => CKeyValidationError
  | MissingMandatoryValue _ => CMissingMandatoryValue
  | InterpolationKeyError _ => CInterpolationKeyError
  | OSError _ => COSError
  | InstantiationException _ => CInstantiationException
  end.

(** [isinstance(e, ValueError)]: OmegaConf derives its key validation and
    interpolation errors from [ValueError]. *)
Definition is_ValueError (e : exn) : bool :=
  match e with
  | ValueError _ => true
  | KeyValidationError _ => true
  | InterpolationKeyError _ => true
  | _ => false
  end.

Inductive outcome (A : Type) : Type :=
| Return (a : A)
| Raise (e : exn).
Arguments Return {A} a.
Arguments Raise {A} e.

(** A piece of an f-string: literal text, or a formatted value. *)
Inductive fragment : Type :=
| Lit (s : string)
| Fmt (n : node).

Inductive level : Type := Warning | Info.

(** What [rich.print] is given. *)
Inductive syntax : Type :=
| ToYaml (config_group : dict) (resolve : bool)
| Str (config_group : node).

Inductive printable : Type :=
| Tree (branches : list (string * syntax))
| Value (n : node).

Inductive event : Type :=
| Log (lvl : level) (msg : list fragment)
| Ask (question : string) (default : string)
| Print (content : printable)
| PrintToFile (file : path) (content : printable).

(** Computations that log and may raise. *)
Definition W (A : Type) : Type := list event * outcome A.

Definition ret {A} (a : A) : W A := ([], Return a).
Definition raise {A} (e : exn) : W A := ([], Raise e).
Definition emit (ev : event) : W unit := ([ev], Return tt).
Definition lift {A} (r : outcome A) : W A := ([], r).

Definition bind {A B} (m : W A) (f : A -> W B) : W B :=
  match m with
  | (out, Return a) => let (out', r) := f a in (out ++ out', r)
  | (out, Raise e) => (out, Raise e)
  end.

Definition events {A} (m : W A) : list event := fst m.
Definition result {A} (m : W A) : outcome A := snd m.

(** Computations that also read and mutate the configuration object they
    are given.  A mutation made before an exception is raised stays. *)
Definition St (A : Type) : Type := dict -> dict * W A.

Definition st_ret {A} (a : A) : St A := fun config => (config, ret a).

Definition st_bind {A B} (m : St A) (f : A -> St B) : St B :=
  fun config =>
    match m config with
    | (config1, (out, Return a)) =>
        match f a config1 with
        | (config2, (out', r)) => (config2, (out ++ out', r))
        end
    | (config1, (out, Raise e)) => (config1, (out, Raise e))
    end.

Definition lift_w {A} (m : W A) : St A := fun config => (config, m).
Definition read : St dict := fun config => (config, ret config).
Definition write (config' : dict) : St unit := fun _ => (config', ret tt).

Class Monad (M : Type -> Type) : Type :=
  { mret : forall {A}, A -> M A;
    mbind : forall {A B}, M A -> (A -> M B) -> M B }.

#[export] Instance W_Monad : Monad W :=
  {| mret := @ret; mbind := @bind |}.
#[export] Instance St_Monad : Monad St :=
  {| mret := @st_ret; mbind := @st_bind |}.

(** Handing out the value stored under a key: a missing value and a
    failing interpolation raise. *)
Definition resolve (key : string) (stored : node) : W node :=
  match stored with
  | NMissing => raise (MissingMandatoryValue key)
  | NUnresolved => raise (InterpolationKeyError key)
  | value => ret value
  end.

(** Attribute access [n.attr] on a configuration node: an absent key, or a
    node that is not a mapping, raises an attribute error. *)
Definition getattr (attr : string) (n : node) : W node :=
  match n with
  | NDict d =>
      match lookup attr d with
      | Some stored => resolve attr stored
      | None => raise (AttributeError attr)
      end
  | _ => raise (AttributeError attr)
  end.

(** The method call [n.get(key)]: [DictConfig.get] gives [None] for an
    absent key and for a missing value, and raises on a failing
    interpolation; [ListConfig.get] rejects a string index; other values
    have no such method. *)
Definition get_method (key : string) (n : node) : W node :=
  match n with
  | NDict d =>
      match dict_get key d with
      | NUnresolved => raise (InterpolationKeyError key)
      | value => ret value
      end
  | NList _ => raise (KeyValidationError key)
  | _ => raise (AttributeError "get")
  end.

(** Item access [d[key]] on a [DictConfig]. *)
Definition getitem (key : string) (d : dict) : W node :=
  match lookup key d with
  | Some stored => resolve key stored
  | None => raise (KeyError key)
  end.

(** [d.items()]: the list of all entries, built before the caller sees the
    first one; every value is handed out on the way, so the first one that
    cannot be raises. *)
Fixpoint items (d : dict) : W dict :=
  match d with
  | [] => ret []
  | (key, stored) :: rest =>
      bind (resolve key stored) (fun value =>
      bind (items rest) (fun others =>
      ret ((key, value) :: others)))
  end.

(** The assignment [n.attr = v] on a node whose schema is open: the node
    after the assignment. *)
Definition setattr (attr : string) (v : node) (n : node) : W node :=
  match n with
  | NDict d => ret (NDict (assign attr v d))
  | _ => raise (AttributeError attr)
  end.

(** [OmegaConf.to_yaml(config_group, resolve=resolve)]: with [resolve]
    every interpolation inside the group is resolved first, and one that
    fails raises; a missing value is printed as it is. *)
Definition to_yaml (config_group : dict) (resolve : bool) : W syntax :=
  if resolve && unresolved_inside (NDict config_group)
  then raise (InterpolationKeyError "to_yaml")
  else ret (ToYaml config_group resolve).

(** [Path(parent, name)], which wants a string. *)
Definition make_path (parent : node) (name : string) : W path :=
  match parent with
  | NStr dir => ret (Path dir name)
  | _ => raise (TypeError "expected str, bytes or os.PathLike object")
  end.

Definition is_prompt (ev : event) : bool :=
  match ev with
  | Ask _ _ => true
  | _ => false
  end.

(** No [Prompt.ask] happened. *)
Definition no_prompt (out : list event) : bool :=
  forallb (fun ev => negb (is_prompt ev)) out.

End Eff.

Declare Scope eff_scope.
Delimit Scope eff_scope with eff.
Notation "x <- m ;; k" := (Eff.mbind m (fun x => k))
  (at level 61, m at next level, right associativity) : eff_scope.
Notation "m ;; k" := (Eff.mbind m (fun _ => k))
  (at level 61, right associativity) : eff_scope.

(** ** source/utils/instantiators.py *)

Module Instantiators.
Import Py Eff.
Local Open Scope eff_scope.

(** An entry that the loops construct: a mapping with the reserved key. *)
Definition has_target (entry : string * node) : bool :=
  match snd entry with
  | NDict fields => contains "_target_" fields
  | _ => false
  end.

(** The exception of [d.items()], when it raises: that of the first value
    that cannot be handed out. *)
Fixpoint first_unreadable (d : dict) : option exn :=
  match d with
  | [] => None
  | (key, NMissing) :: _ => Some (MissingMandatoryValue key)
  | (key, NUnresolved) :: _ => Some (InterpolationKeyError key)
  | _ :: rest => first_unreadable rest
  end.

Section WithCollaborator.

(** The constructed objects, and [hydra.utils.instantiate], which builds
    one from an entry that names its [_target_] or raises. *)
Variable Obj : Type.
Variable instantiate : dict -> outcome Obj.

(** The [for _, callback in callbacks_config.items()] loop, over the list
    that [items] gave and with the list built so far. *)
Fixpoint callbacks_loop (entries : dict) (callbacks : list Obj)
  : W (list Obj) :=
  match entries with
  | [] => ret callbacks
  | (_, callback) :: rest =>
      match callback with
      | NDict entry =>
          if contains "_target_" entry then
            target <- getattr "_target_" callback ;;
            emit (Log Info [Lit "Instantiating callback <"; Fmt target;
                            Lit ">"]) ;;
            obj <- lift (instantiate entry) ;;
            callbacks_loop rest (callbacks ++ [obj])
          else callbacks_loop rest callbacks
      | _ => callbacks_loop rest callbacks
      end
  end.

Definition instantiate_callbacks (callbacks_config : pyobj)
  : W (list Obj) :=
  let callbacks : list Obj := [] in
  if negb (truthy_obj callbacks_config) then
    emit (Log Warning [Lit "No callback configs found! Skipping.."]) ;;
    ret callbacks
  else
    match callbacks_config with
    | Node (NDict d) =>
        entries <- items d ;;
        callbacks_loop entries callbacks
    | _ => raise (TypeError "Callbacks config must be a DictConfig!")
    end.

(** The [for _, logg in logger_config.items()] loop. *)
Fixpoint loggers_loop (entries : dict) (loggers : list Obj)
  : W (list Obj) :=
  match entries with
  | [] => ret loggers
  | (_, logg) :: rest =>
      match logg with
      | NDict entry =>
          if contains "_target_" entry then
            target <- getattr "_target_" logg ;;
            emit (Log Info [Lit "Instantiating logger <"; Fmt target;
                            Lit ">"]) ;;
            obj <- lift (instantiate entry) ;;
            loggers_loop rest (loggers ++ [obj])
          else loggers_loop rest loggers
      | _ => loggers_loop rest loggers
      end
  end.

Definition instantiate_loggers (logger_config : pyobj) : W (list Obj) :=
  let loggers : list Obj := [] in
  if negb (truthy_obj logger_config) then
    emit (Log Warning [Lit "No logger configs found! Skipping..."]) ;;
    ret loggers
  else
    match logger_config with
    | Node (NDict d) =>
        entries <- items d ;;
        loggers_loop entries loggers
    | _ => raise (TypeError "Logger config must be a DictConfig!")
    end.

(** The target of an entry can be read: the key is there and its value is
    neither missing nor a failing interpolation. *)
Definition target_readable (fields : dict) : bool :=
  match lookup "_target_" fields with
  | Some stored => readable stored
  | None => false
  end.

(** The objects constructed from the mapping entries of a list of
    entries, one after the other: the target of the entry is read, then
    the collaborator is called. The first exception ends it. *)
Fixpoint construct_all (entries : dict) : outcome (list Obj) :=
  match entries with
  | [] => Return []
  | (_, NDict entry) :: rest =>
      match result (getattr "_target_" (NDict entry)) with
      | Return _ =>
          match instantiate entry with
          | Return obj =>
              match construct_all rest with
              | Return objs => Return (obj :: objs)
              | Raise e => Raise e
              end
          | Raise e => Raise e
          end
      | Raise e => Raise e
      end
  | _ :: rest => construct_all rest
  end.

(** What a call on a mapping ends with: the exception of [items], or the
    constructions of the entries with a target. *)
Definition instantiate_all (d : dict) : outcome (list Obj) :=
  match first_unreadable d with
  | Some e => Raise e
  | None => construct_all (filter has_target d)
  end.

(** The list built so far, followed by what [construct_all] gives. *)
Definition extend (acc : list Obj) (r : outcome (list Obj))
  : outcome (list Obj) :=
  match r with
  | Return objs => Return (acc ++ objs)
  | Raise e => Raise e
  end.

(** [obj] is what the collaborator constructs from [entry], whose target
    can be read. *)
Definition constructed (entry : string * node) (obj : Obj) : Prop :=
  match snd entry with
  | NDict fields =>
      target_readable fields = true /\ instantiate fields = Return obj
  | _ => False
  end.

End WithCollaborator.

Arguments callbacks_loop {Obj} instantiate entries callbacks.
Arguments loggers_loop {Obj} instantiate entries loggers.
Arguments instantiate_callbacks {Obj} instantiate callbacks_config.
Arguments instantiate_loggers {Obj} instantiate logger_config.
Arguments construct_all {Obj} instantiate entries.
Arguments instantiate_all {Obj} instantiate d.
Arguments constructed {Obj} instantiate entry obj.
Arguments extend {Obj} acc r.

(** Two runs end alike: with the same value, or with an exception of the
    same class. *)
Definition same_ending {A} (r1 r2 : outcome A) : Prop :=
  match r1, r2 with
  | Return a1, Return a2 => a1 = a2
  | Raise e1, Raise e2 => class_of e1 = class_of e2
  | _, _ => False
  end.

(** A trace without the wording of its log messages: the level and the
    formatted values stay. *)
Definition is_fmt (f : fragment) : bool :=
  match f with
  | Fmt _ => true
  | Lit _ => false
  end.

Definition erase_wording (ev : event) : event :=
  match ev with
  | Log lvl msg => Log lvl (filter is_fmt msg)
  | _ => ev
  end.

End Instantiators.

(** ** source/utils/rich_utils.py

    Both functions are decorated with [rank_zero_only]: the primary process
    of a job runs the body, the other processes skip the call. The
    definitions are the bodies, as the primary process runs them. *)

Module RichUtils.
Import Py Eff.
Local Open Scope eff_scope.

Definition default_print_order : list string :=
  ["datamodule"; "model"; "callbacks"; "logger"; "trainer"; "paths";
   "extras"].

(** [for field in print_order]: a field of the config joins the queue,
    another one is warned about. *)
Fixpoint print_order_loop (config : dict) (print_order : list string)
         (queue : list string) : W (list string) :=
  match print_order with
  | [] => ret queue
  | field :: rest =>
      if contains field config then
        print_order_loop config rest (queue ++ [field])
      else
        emit (Log Warning
                  [Lit "Field '"; Fmt (NStr field);
                   Lit "' not found in config. Skipping '";
                   Fmt (NStr field); Lit "' config printing..."]) ;;
        print_order_loop config rest queue
  end.

(** [for field in config: if field not in queue] *)
Fixpoint other_fields_loop (fields : list string) (queue : list string)
  : list string :=
  match fields with
  | [] => queue
  | field :: rest =>
      if negb (mem field queue) then other_fields_loop rest (queue ++ [field])
      else other_fields_loop rest queue
  end.

Definition build_queue (config : dict) (print_order : list string)
  : W (list string) :=
  let queue : list string := [] in
  queue <- print_order_loop config print_order queue ;;
  ret (other_fields_loop (keys config) queue).

(** [for field in queue]: one branch per field, labelled by it. *)
Fixpoint branches_loop (config : dict) (resolve : bool)
         (queue : list string) (tree : list (string * syntax))
  : W (list (string * syntax)) :=
  match queue with
  | [] => ret tree
  | field :: rest =>
      config_group <- getitem field config ;;
      branch_content <- match config_group with
                        | NDict group => to_yaml group resolve
                        | _ => ret (Str config_group)
                        end ;;
      branches_loop config resolve rest (tree ++ [(field, branch_content)])
  end.

Section WithEnvironment.

(** Whether [open(file, "w")] succeeds; the job node
    [HydraConfig().cfg.hydra.job] of the launch; the line typed at the
    prompt. *)
Variable can_open : path -> bool.
Variable hydra_job : dict.
Variable entered : string.

(** [open(file, "w")]: a path with a NUL character is refused with a
    [ValueError]; any other failure is an [OSError]. *)
Definition open_w (file : path) : W unit :=
  match file with
  | Path parent name =>
      if has_nul parent || has_nul name
      then raise (ValueError "embedded null byte")
      else if can_open file then ret tt else raise (OSError file)
  end.

Definition print_config_tree (config : dict) (print_order : list string)
           (resolve save_to_file : bool) : W unit :=
  queue <- build_queue config print_order ;;
  branches <- branches_loop config resolve queue [] ;;
  let tree := Tree branches in
  emit (Print tree) ;;
  if save_to_file then
    paths <- getattr "paths" (NDict config) ;;
    dir <- getattr "hydra_output_dir" paths ;;
    file <- make_path dir "config_tree.log" ;;
    open_w file ;;
    emit (PrintToFile file tree)
  else ret tt.

(** What [Prompt.ask(question, default=default)] of the rich library
    returns: the default for an empty line, any other line without the
    whitespace around it. *)
Definition answer (default : string) : string :=
  if String.eqb entered "" then default else strip entered.

Definition Prompt_ask (question default : string) : W string :=
  emit (Ask question default) ;;
  ret (answer default).

(** [[t.strip() for t in tags.split(",") if t != ""]] *)
Definition parse_tags (tags : string) : list string :=
  map strip (filter (fun t => negb (String.eqb t "")) (split "," tags)).

(** The body of [if not config.get("core").get("tags"):], lines 85-95. *)
Definition ask_for_tags : St unit :=
  (if contains "id" hydra_job then
     lift_w (raise (ValueError "Specify tags before launching a multirun!"))
   else st_ret tt) ;;
  lift_w (emit (Log Warning
    [Lit "No tags provided in config. Prompting user to input tags..."])) ;;
  tags <- lift_w (Prompt_ask "Enter a list of comma separated tags" "dev") ;;
  let tags := parse_tags tags in
  (* with open_dict(config): config.core.tags = tags *)
  config <- read ;;
  core <- lift_w (getattr "core" (NDict config)) ;;
  core' <- lift_w (setattr "tags" (NList (map NStr tags)) core) ;;
  write (assign "core" core' config) ;;
  (* log.info(f"Tags: {config.tags}") *)
  config <- read ;;
  shown <- lift_w (getattr "tags" (NDict config)) ;;
  lift_w (emit (Log Info [Lit "Tags: "; Fmt shown])).

(** The body of [if save_to_file:], lines 98-99. *)
Definition save_tags : St unit :=
  config <- read ;;
  paths <- lift_w (getattr "paths" (NDict config)) ;;
  dir <- lift_w (getattr "hydra_output_dir" paths) ;;
  file <- lift_w (make_path dir "tags.log") ;;
  lift_w (open_w file) ;;
  core <- lift_w (getattr "core" (NDict config)) ;;
  tags <- lift_w (getattr "tags" core) ;;
  lift_w (emit (PrintToFile file (Value tags))).

Definition enforce_tags (save_to_file : bool) : St unit :=
  config <- read ;;
  core <- lift_w (get_method "core" (NDict config)) ;;
  tags <- lift_w (get_method "tags" core) ;;
  (if negb (truthy tags) then ask_for_tags else st_ret tt) ;;
  if save_to_file then save_tags else st_ret tt.

End WithEnvironment.

(** The configuration object after a run, the trace of the run, and how
    it ended. *)
Definition final_config {A} (r : dict * W A) : dict := fst r.
Definition trace {A} (r : dict * W A) : list event := fst (snd r).
Definition ending {A} (r : dict * W A) : outcome A := snd (snd r).

(** [config.section.key], when the config has it. *)
Definition subfield (section key : string) (config : dict) : option node :=
  match lookup section config with
  | Some (NDict fields) => lookup key fields
  | _ => None
  end.

Definition core_tags (config : dict) : option node :=
  subfield "core" "tags" config.

(** The tags that a line typed at the prompt leaves in [core.tags]. *)
Definition tags_of_line (entered : string) : node :=
  NList (map NStr (parse_tags (answer entered "dev"))).

End RichUtils.

(** ** Concrete configurations *)

Module Examples.
Import Py Eff RichUtils.

(** A collaborator for the examples: it constructs the name of the target,
    and raises when the target is not a string. *)
Definition name_of_target (entry : dict) : outcome string :=
  match lookup "_target_" entry with
  | Some (NStr target) => Return target
  | _ => Raise (InstantiationException "cannot locate the target")
  end.

Definition early_stopping : node :=
  NDict [("_target_", NStr "lightning.pytorch.callbacks.EarlyStopping");
         ("patience", NInt 3)].

Definition model_checkpoint : node :=
  NDict [("_target_", NStr "lightning.pytorch.callbacks.ModelCheckpoint")].

(** Every entry names a target. *)
Definition two_callbacks : dict :=
  [("early_stopping", early_stopping); ("model_checkpoint", model_checkpoint)].

(** An entry without the reserved key. *)
Definition annotation : string * node :=
  ("defaults", NDict [("monitor", NStr "val/loss")]).

(** A root config with [core.tags] unset. *)
Definition untagged_config : dict :=
  [("core", NDict [("seed", NInt 42); ("tags", NList [])]);
   ("paths", NDict [("hydra_output_dir", NStr "logs/runs/today")])].

(** The same, with a top-level [tags] field besides. *)
Definition untagged_config_with_tags : dict :=
  [("tags", NList [NStr "legacy"]);
   ("core", NDict [("seed", NInt 42); ("tags", NList [])]);
   ("paths", NDict [("hydra_output_dir", NStr "logs/runs/today")])].

Definition tagged_config : dict :=
  [("core", NDict [("seed", NInt 42); ("tags", NList [NStr "existing"])]);
   ("paths", NDict [("hydra_output_dir", NStr "logs/runs/today")])].

(** The job node of a single run, whose [id] is still missing, and of a
    job of a multirun. *)
Definition single_run_job : dict := [("name", NStr "train"); ("id", NMissing)].
Definition multirun_job : dict :=
  [("name", NStr "train"); ("id", NStr "3"); ("num", NInt 3)].

Definition any_file (file : path) : bool := true.

(** Callbacks with a note whose value is still missing. *)
Definition annotated_callbacks : dict :=
  [("early_stopping", early_stopping); ("note", NMissing)].

(** A root whose [model] is still missing. *)
Definition unfinished_config : dict :=
  [("model", NMissing); ("extra", NBool true)].

(** Root fields in the order callbacks, model, extra. *)
Definition tree_config : dict :=
  [("callbacks", NDict two_callbacks);
   ("model", NDict [("lr", NStr "0.001")]);
   ("extra", NBool true)].

End Examples.

(** ** What a run shows *)

Module Observations.
Import Py Eff Instantiators RichUtils.

(** The value that the log line of an entry formats: [entry._target_]. *)
Definition target_of (entry : string * node) : node :=
  match snd entry with
  | NDict fields => dict_get "_target_" fields
  | _ => NNone
  end.

(** The log lines of the two loops for an entry. *)
Definition announce_callback (entry : string * node) : event :=
  Log Info [Lit "Instantiating callback <"; Fmt (target_of entry); Lit ">"].

Definition announce_logger (entry : string * node) : event :=
  Log Info [Lit "Instantiating logger <"; Fmt (target_of entry); Lit ">"].

(** One list of objects after the other, unless one of the two is an
    exception: then the first exception. *)
Definition one_after_the_other {A} (r1 r2 : outcome (list A))
  : outcome (list A) :=
  match r1, r2 with
  | Return l1, Return l2 => Return (l1 ++ l2)
  | Raise e, _ => Raise e
  | Return _, Raise e => Raise e
  end.

(** The warning for a name of the preference list that is not a field of
    the config. *)
Definition missing_field_warning (field : string) : event :=
  Log Warning
      [Lit "Field '"; Fmt (NStr field);
       Lit "' not found in config. Skipping '";
       Fmt (NStr field); Lit "' config printing..."].

(** The value can be shown in a branch: it can be handed out and, when it
    is a mapping printed with [resolve], no interpolation inside it
    fails. *)
Definition shows (resolve : bool) (stored : node) : bool :=
  readable stored
  && match stored with
     | NDict group => negb (resolve && unresolved_inside (NDict group))
     | _ => true
     end.

(** Every value of the root can be shown. *)
Definition renders (resolve : bool) (config : dict) : bool :=
  forallb (fun entry => shows resolve (snd entry)) config.

(** The value under a field of the root can be shown. *)
Definition shows_at (resolve : bool) (config : dict) (field : string)
  : bool :=
  match lookup field config with
  | Some stored => shows resolve stored
  | None => false
  end.

(** The queue of [print_config_tree]: the names of the preference list
    that count as fields of the root, then the keys of the root that are
    not queued yet. *)
Definition queue_of (config : dict) (print_order : list string)
  : list string :=
  other_fields_loop (keys config)
                    (filter (fun field => contains field config) print_order).

(** What a branch of the tree shows for a value of the config. *)
Definition branch_content (resolve : bool) (config_group : node) : syntax :=
  match config_group with
  | NDict group => ToYaml group resolve
  | _ => Str config_group
  end.

(** The branches of the tree for a queue of fields. *)
Definition branches_of (config : dict) (resolve : bool)
           (queue : list string) : list (string * syntax) :=
  map (fun field => (field, branch_content resolve (dict_get field config)))
      queue.

(** The trees printed on the console. *)
Definition printed_trees (out : list event) : list (list (string * syntax)) :=
  flat_map (fun ev => match ev with
                      | Print (Tree branches) => [branches]
                      | _ => []
                      end) out.


(** How many times the user was asked. *)
Definition count_prompts (out : list event) : nat :=
  List.length (filter is_prompt out).


(** The file [config.paths.hydra_output_dir / name], when the config names
    the directory by a string and the file can be opened for writing. *)
Definition output_file (can_open : path -> bool) (config : dict)
           (name : string) : option path :=
  match lookup "paths" config with
  | Some (NDict paths) =>
      match lookup "hydra_output_dir" paths with
      | Some (NStr dir) =>
          if negb (has_nul dir || has_nul name) && can_open (Path dir name)
          then Some (Path dir name) else None
      | _ => None
      end
  | _ => None
  end.

(** The last lines of [print_config_tree]: the tree goes to
    [config_tree.log] in the output directory. *)
Definition save_tree (can_open : path -> bool) (config : dict)
           (tree : printable) : W unit :=
  (paths <- getattr "paths" (NDict config) ;;
   dir <- getattr "hydra_output_dir" paths ;;
   file <- make_path dir "config_tree.log" ;;
   open_w can_open file ;;
   emit (PrintToFile file tree))%eff.

(** The field names of [config.core], in order. *)
Definition core_keys (config : dict) : list string :=
  match lookup "core" config with
  | Some (NDict core) => keys core
  | _ => []
  end.

(** [c in s] for a character. *)
Fixpoint mentions (c : ascii) (s : string) : bool :=
  match s with
  | EmptyString => false
  | String c' rest => Ascii.eqb c' c || mentions c rest
  end.

(** A line made of commas only (the empty line included). *)
Fixpoint only_commas (s : string) : bool :=
  match s with
  | EmptyString => true
  | String c rest => Ascii.eqb c "," && only_commas rest
  end.

End Observations.

(** * Properties *)

(** ** Ordered dictionaries and strings *)

Module PyFacts.
Import Py.

Lemma contains_lookup (key : string) (d : dict) :
  contains key d = true ->
  exists v, lookup key d = Some v /\ v <> NMissing.
Proof.
  unfold contains. destruct (lookup key d) as [v|]; [|discriminate].
  intros H. exists v. split; [reflexivity|]. intros ->. discriminate.
Qed.

Lemma lookup_mem (key : string) (d : dict) :
  mem key (keys d) = match lookup key d with
                     | Some _ => true
                     | None => false
                     end.
Proof.
  unfold keys. induction d as [|[k w] rest IH]; simpl.
  - reflexivity.
  - destruct (String.eqb key k); simpl; [reflexivity | exact IH].
Qed.

Lemma lookup_In (key : string) (v : node) (d : dict) :
  lookup key d = Some v -> In (key, v) d.
Proof.
  induction d as [|[k w] rest IH]; simpl; [discriminate|].
  destruct (String.eqb key k) eqn:E.
  - apply String.eqb_eq in E. subst k. intros [= ->]. now left.
  - intros H. right. now apply IH.
Qed.


(** When every value can be handed out, the keys that count are the keys
    that are there. *)
Lemma contains_readable (key : string) (d : dict) :
  all_readable d = true -> contains key d = mem key (keys d).
Proof.
  intros Hall. rewrite lookup_mem. unfold contains.
  destruct (lookup key d) as [v|] eqn:E; [|reflexivity].
  apply lookup_In in E. unfold all_readable in Hall.
  rewrite forallb_forall in Hall. specialize (Hall _ E). simpl in Hall.
  now destruct v.
Qed.

Lemma lookup_assign_same (key : string) (v : node) (d : dict) :
  lookup key (assign key v d) = Some v.
Proof.
  induction d as [|[k w] rest IH]; simpl.
  - now rewrite String.eqb_refl.
  - destruct (String.eqb key k) eqn:E; simpl; now rewrite E.
Qed.

Lemma lookup_assign_other (key key' : string) (v : node) (d : dict) :
  key' <> key -> lookup key' (assign key v d) = lookup key' d.
Proof.
  intros Hne. induction d as [|[k w] rest IH]; simpl.
  - destruct (String.eqb key' key) eqn:E; [|reflexivity].
    apply String.eqb_eq in E. contradiction.
  - destruct (String.eqb key k) eqn:E; simpl.
    + apply String.eqb_eq in E. subst k.
      destruct (String.eqb key' key) eqn:E'; [|reflexivity].
      apply String.eqb_eq in E'. contradiction.
    + now rewrite IH.
Qed.

Lemma keys_assign_present (key : string) (v : node) (d : dict) :
  mem key (keys d) = true -> keys (assign key v d) = keys d.
Proof.
  unfold keys. induction d as [|[k w] rest IH]; simpl.
  - discriminate.
  - destruct (String.eqb key k) eqn:E; simpl; [reflexivity|].
    intros H. now rewrite IH.
Qed.

Lemma keys_assign_absent (key : string) (v : node) (d : dict) :
  mem key (keys d) = false -> keys (assign key v d) = keys d ++ [key].
Proof.
  unfold keys. induction d as [|[k w] rest IH]; simpl.
  - reflexivity.
  - destruct (String.eqb key k) eqn:E; simpl; [discriminate|].
    intros H. now rewrite IH.
Qed.

Lemma mem_In (x : string) (l : list string) : mem x l = true <-> In x l.
Proof.
  induction l as [|y rest IH]; simpl.
  - split; [discriminate | contradiction].
  - rewrite orb_true_iff, String.eqb_eq, IH. intuition congruence.
Qed.

Lemma mem_app (x : string) (l1 l2 : list string) :
  mem x (l1 ++ l2) = mem x l1 || mem x l2.
Proof.
  induction l1 as [|y rest IH]; simpl; [reflexivity|].
  now rewrite IH, orb_assoc.
Qed.

Lemma split_not_nil (sep : ascii) (s : string) : split sep s <> [].
Proof.
  destruct s as [|c rest]; simpl; [discriminate|].
  destruct (Ascii.eqb c sep); [discriminate|].
  destruct (split sep rest); discriminate.
Qed.

Lemma lstrip_empty (s : string) : lstrip s = "" <-> all_space s = true.
Proof.
  induction s as [|c rest IH]; simpl.
  - split; reflexivity.
  - destruct (is_space c); simpl; [exact IH|].
    split; discriminate.
Qed.

Lemma rstrip_empty (s : string) : rstrip s = "" <-> all_space s = true.
Proof.
  induction s as [|c rest IH]; simpl.
  - split; reflexivity.
  - destruct (rstrip rest) as [|c' kept].
    + destruct (is_space c); simpl.
      * split; [intros _; now apply IH | reflexivity].
      * split; discriminate.
    + split; [discriminate|].
      intros H. apply andb_true_iff in H as [_ H].
      apply IH in H. discriminate.
Qed.

Lemma all_space_lstrip (s : string) : all_space (lstrip s) = all_space s.
Proof.
  induction s as [|c rest IH]; simpl; [reflexivity|].
  destruct (is_space c) eqn:E; simpl; [exact IH | now rewrite E].
Qed.

(** Trimming leaves nothing exactly of the strings of whitespace. *)
Lemma strip_empty (s : string) : strip s = "" <-> all_space s = true.
Proof.
  unfold strip. now rewrite rstrip_empty, all_space_lstrip.
Qed.

End PyFacts.

(** ** Traces *)

Module EffFacts.
Import Py Eff.

Lemma events_bind {A B} (m : W A) (f : A -> W B) :
  events (mbind m f)
  = events m ++ match result m with
                | Return a => events (f a)
                | Raise _ => []
                end.
Proof.
  destruct m as [out [a|e]]; simpl.
  - now destruct (f a).
  - now rewrite app_nil_r.
Qed.

Lemma result_bind {A B} (m : W A) (f : A -> W B) :
  result (mbind m f)
  = match result m with
    | Return a => result (f a)
    | Raise e => Raise e
    end.
Proof.
  destruct m as [out [a|e]]; simpl; [|reflexivity].
  now destruct (f a).
Qed.

Lemma resolve_readable (key : string) (v : node) :
  readable v = true -> resolve key v = ret v.
Proof. now destruct v. Qed.

Lemma resolve_silent (key : string) (v : node) : events (resolve key v) = [].
Proof. now destruct v. Qed.

Lemma getattr_silent (attr : string) (n : node) :
  events (getattr attr n) = [].
Proof.
  destruct n; try reflexivity. simpl.
  destruct (lookup attr fields); [apply resolve_silent | reflexivity].
Qed.

Lemma getattr_value (attr : string) (d : dict) (v : node) :
  lookup attr d = Some v -> readable v = true ->
  getattr attr (NDict d) = ret v.
Proof. intros H Hv. simpl. rewrite H. now apply resolve_readable. Qed.

Lemma getitem_value (key : string) (d : dict) (v : node) :
  lookup key d = Some v -> readable v = true -> getitem key d = ret v.
Proof. intros H Hv. unfold getitem. rewrite H. now apply resolve_readable. Qed.

(** A computation is its trace and its ending. *)
Lemma run_eta {A} (m : W A) : m = (events m, result m).
Proof. now destruct m. Qed.

End EffFacts.

(** ** The instantiators *)

Module InstantiatorsFacts.
Import Py Eff Instantiators PyFacts EffFacts.

(** [items] hands out the mapping as it is, or raises for the first value
    that it cannot hand out. *)
Lemma items_spec (d : dict) :
  items d = match first_unreadable d with
            | Some e => ([], Raise e)
            | None => ([], Return d)
            end.
Proof.
  induction d as [|[key stored] rest IH]; [reflexivity|].
  destruct stored; cbn [items resolve first_unreadable];
    unfold bind, ret, raise; try reflexivity;
    rewrite IH; now destruct (first_unreadable rest).
Qed.

Lemma first_unreadable_readable (d : dict) :
  first_unreadable d = None <-> all_readable d = true.
Proof.
  unfold all_readable. induction d as [|[key stored] rest IH]; simpl.
  - split; reflexivity.
  - destruct stored; simpl; try exact IH; split; discriminate.
Qed.

Lemma first_unreadable_skip (before after : dict) (entry : string * node) :
  readable (snd entry) = true ->
  first_unreadable (before ++ entry :: after)
  = first_unreadable (before ++ after).
Proof.
  intros Hentry. induction before as [|[key stored] rest IH]; simpl.
  - destruct entry as [key stored]. simpl in Hentry.
    now destruct stored.
  - now destruct stored.
Qed.

(** The read of a target that the entry contains. *)
Lemma target_read (fields : dict) :
  contains "_target_" fields = true ->
  getattr "_target_" (NDict fields)
  = if target_readable fields then ret (dict_get "_target_" fields)
    else raise (InterpolationKeyError "_target_").
Proof.
  unfold contains, target_readable, dict_get. simpl.
  destruct (lookup "_target_" fields) as [stored|]; [|discriminate].
  now destruct stored.
Qed.

Lemma target_readable_result (fields : dict) :
  contains "_target_" fields = true ->
  (target_readable fields = true
   <-> exists target,
       result (getattr "_target_" (NDict fields)) = Return target).
Proof.
  intros Ht. rewrite (target_read _ Ht).
  destruct (target_readable fields); simpl.
  - split; [eauto | reflexivity].
  - split; [discriminate | intros [target H]; discriminate].
Qed.

Lemma target_readable_contains (fields : dict) :
  target_readable fields = true -> contains "_target_" fields = true.
Proof.
  unfold target_readable, contains.
  destruct (lookup "_target_" fields) as [stored|]; [|discriminate].
  now destruct stored.
Qed.

Section WithCollaborator.

Context {Obj : Type} (instantiate : dict -> outcome Obj).

(** One turn of the loops on an entry with a target. *)
Lemma callbacks_loop_step (name : string) (fields rest : dict)
      (acc : list Obj) :
  contains "_target_" fields = true ->
  callbacks_loop instantiate ((name, NDict fields) :: rest) acc
  = match result (getattr "_target_" (NDict fields)) with
    | Return target =>
        match instantiate fields with
        | Return obj =>
            (Log Info [Lit "Instantiating callback <"; Fmt target; Lit ">"]
             :: events (callbacks_loop instantiate rest (acc ++ [obj])),
             result (callbacks_loop instantiate rest (acc ++ [obj])))
        | Raise e =>
            ([Log Info [Lit "Instantiating callback <"; Fmt target; Lit ">"]],
             Raise e)
        end
    | Raise e => ([], Raise e)
    end.
Proof.
  intros Ht. cbn [callbacks_loop]. rewrite Ht, (target_read _ Ht).
  destruct (target_readable fields); [|reflexivity].
  unfold mbind, W_Monad, bind, ret, emit, lift. cbn [result snd].
  destruct (instantiate fields) as [obj|e]; [|reflexivity].
  now destruct (callbacks_loop instantiate rest (acc ++ [obj])).
Qed.

Lemma loggers_loop_step (name : string) (fields rest : dict)
      (acc : list Obj) :
  contains "_target_" fields = true ->
  loggers_loop instantiate ((name, NDict fields) :: rest) acc
  = match result (getattr "_target_" (NDict fields)) with
    | Return target =>
        match instantiate fields with
        | Return obj =>
            (Log Info [Lit "Instantiating logger <"; Fmt target; Lit ">"]
             :: events (loggers_loop instantiate rest (acc ++ [obj])),
             result (loggers_loop instantiate rest (acc ++ [obj])))
        | Raise e =>
            ([Log Info [Lit "Instantiating logger <"; Fmt target; Lit ">"]],
             Raise e)
        end
    | Raise e => ([], Raise e)
    end.
Proof.
  intros Ht. cbn [loggers_loop]. rewrite Ht, (target_read _ Ht).
  destruct (target_readable fields); [|reflexivity].
  unfold mbind, W_Monad, bind, ret, emit, lift. cbn [result snd].
  destruct (instantiate fields) as [obj|e]; [|reflexivity].
  now destruct (loggers_loop instantiate rest (acc ++ [obj])).
Qed.

(** One turn of the loops on an entry without a target. *)
Lemma callbacks_loop_pass (entry : string * node) (rest : dict)
      (acc : list Obj) :
  has_target entry = false ->
  callbacks_loop instantiate (entry :: rest) acc
  = callbacks_loop instantiate rest acc.
Proof.
  destruct entry as [name stored]. unfold has_target. simpl.
  destruct stored; try reflexivity. now intros ->.
Qed.

Lemma loggers_loop_pass (entry : string * node) (rest : dict)
      (acc : list Obj) :
  has_target entry = false ->
  loggers_loop instantiate (entry :: rest) acc
  = loggers_loop instantiate rest acc.
Proof.
  destruct entry as [name stored]. unfold has_target. simpl.
  destruct stored; try reflexivity. now intros ->.
Qed.

(** An entry with a target is a mapping that contains it. *)
Lemma has_target_true (entry : string * node) :
  has_target entry = true ->
  exists name fields,
    entry = (name, NDict fields) /\ contains "_target_" fields = true.
Proof.
  destruct entry as [name stored]. unfold has_target. simpl.
  destruct stored; try discriminate. eauto.
Qed.

Lemma callbacks_loop_result (entries : dict) (acc : list Obj) :
  result (callbacks_loop instantiate entries acc)
  = extend acc (construct_all instantiate (filter has_target entries)).
Proof.
  revert acc. induction entries as [|entry rest IH]; intros acc.
  - simpl. now rewrite app_nil_r.
  - cbn [filter]. destruct (has_target entry) eqn:Hentry.
    + destruct (has_target_true _ Hentry) as [name [fields [-> Ht]]].
      rewrite (callbacks_loop_step _ _ _ _ Ht). cbn [construct_all].
      destruct (result (getattr "_target_" (NDict fields))) as [target|e];
        [|reflexivity].
      destruct (instantiate fields) as [obj|e]; [|reflexivity].
      cbn [result snd]. change (snd ?x) with (result x). rewrite IH.
      destruct (construct_all instantiate (filter has_target rest)); simpl;
        [now rewrite <- app_assoc | reflexivity].
    + rewrite (callbacks_loop_pass _ _ _ Hentry). apply IH.
Qed.

Lemma loggers_loop_result (entries : dict) (acc : list Obj) :
  result (loggers_loop instantiate entries acc)
  = extend acc (construct_all instantiate (filter has_target entries)).
Proof.
  revert acc. induction entries as [|entry rest IH]; intros acc.
  - simpl. now rewrite app_nil_r.
  - cbn [filter]. destruct (has_target entry) eqn:Hentry.
    + destruct (has_target_true _ Hentry) as [name [fields [-> Ht]]].
      rewrite (loggers_loop_step _ _ _ _ Ht). cbn [construct_all].
      destruct (result (getattr "_target_" (NDict fields))) as [target|e];
        [|reflexivity].
      destruct (instantiate fields) as [obj|e]; [|reflexivity].
      cbn [result snd]. change (snd ?x) with (result x). rewrite IH.
      destruct (construct_all instantiate (filter has_target rest)); simpl;
        [now rewrite <- app_assoc | reflexivity].
    + rewrite (loggers_loop_pass _ _ _ Hentry). apply IH.
Qed.

(** A call on a mapping that is not empty: [items], then the loop. *)
Lemma instantiate_callbacks_run (entry : string * node) (rest : dict) :
  instantiate_callbacks instantiate (Node (NDict (entry :: rest)))
  = match first_unreadable (entry :: rest) with
    | Some e => ([], Raise e)
    | None => callbacks_loop instantiate (entry :: rest) []
    end.
Proof.
  unfold instantiate_callbacks.
  cbn [truthy_obj truthy List.length Nat.eqb negb].
  rewrite items_spec. unfold mbind, W_Monad, bind.
  destruct (first_unreadable (entry :: rest)); [reflexivity|].
  now destruct (callbacks_loop instantiate (entry :: rest) []).
Qed.

Lemma instantiate_loggers_run (entry : string * node) (rest : dict) :
  instantiate_loggers instantiate (Node (NDict (entry :: rest)))
  = match first_unreadable (entry :: rest) with
    | Some e => ([], Raise e)
    | None => loggers_loop instantiate (entry :: rest) []
    end.
Proof.
  unfold instantiate_loggers.
  cbn [truthy_obj truthy List.length Nat.eqb negb].
  rewrite items_spec. unfold mbind, W_Monad, bind.
  destruct (first_unreadable (entry :: rest)); [reflexivity|].
  now destruct (loggers_loop instantiate (entry :: rest) []).
Qed.

(** On a mapping, both instantiators end as [instantiate_all] says. *)
Lemma instantiate_callbacks_result (d : dict) :
  result (instantiate_callbacks instantiate (Node (NDict d)))
  = instantiate_all instantiate d.
Proof.
  destruct d as [|entry rest]; [reflexivity|].
  rewrite instantiate_callbacks_run. unfold instantiate_all.
  destruct (first_unreadable (entry :: rest)); [reflexivity|].
  rewrite callbacks_loop_result.
  now destruct (construct_all instantiate (filter has_target (entry :: rest))).
Qed.

Lemma instantiate_loggers_result (d : dict) :
  result (instantiate_loggers instantiate (Node (NDict d)))
  = instantiate_all instantiate d.
Proof.
  destruct d as [|entry rest]; [reflexivity|].
  rewrite instantiate_loggers_run. unfold instantiate_all.
  destruct (first_unreadable (entry :: rest)); [reflexivity|].
  rewrite loggers_loop_result.
  now destruct (construct_all instantiate (filter has_target (entry :: rest))).
Qed.



Lemma construct_all_constructed (entries : dict) (objs : list Obj) :
  Forall2 (constructed instantiate) entries objs ->
  construct_all instantiate entries = Return objs.
Proof.
  induction 1 as [|[name entry] obj rest objs' Hc _ IH]; [reflexivity|].
  unfold constructed in Hc. simpl in Hc.
  destruct entry; try contradiction. destruct Hc as [Hread Hobj].
  cbn [construct_all].
  rewrite (target_read _ (target_readable_contains _ Hread)), Hread.
  cbn [result snd ret]. now rewrite Hobj, IH.
Qed.

Lemma construct_all_returns (entries : dict) (objs : list Obj) :
  forallb has_target entries = true ->
  construct_all instantiate entries = Return objs ->
  Forall2 (constructed instantiate) entries objs.
Proof.
  revert objs. induction entries as [|[name entry] rest IH];
    intros objs Hall.
  - intros [= <-]. constructor.
  - simpl in Hall. apply andb_true_iff in Hall as [Hentry Hrest].
    unfold has_target in Hentry. simpl in Hentry.
    destruct entry; try discriminate.
    cbn [construct_all]. rewrite (target_read _ Hentry).
    destruct (target_readable fields) eqn:Hread; [|discriminate].
    cbn [result snd ret].
    destruct (instantiate fields) as [obj|e] eqn:Hobj; [|discriminate].
    destruct (construct_all instantiate rest) as [objs'|e]; [|discriminate].
    intros [= <-]. constructor; [now split | now apply IH].
Qed.


(** Dropping an entry without a target changes neither the trace nor the
    ending of the loops. *)
Lemma callbacks_loop_skip (before after : dict) (entry : string * node)
      (acc : list Obj) :
  has_target entry = false ->
  callbacks_loop instantiate (before ++ entry :: after) acc
  = callbacks_loop instantiate (before ++ after) acc.
Proof.
  intros Hskip. revert acc.
  induction before as [|first rest IH]; intros acc.
  - now apply callbacks_loop_pass.
  - cbn [app]. destruct (has_target first) eqn:Hfirst.
    + destruct (has_target_true _ Hfirst) as [name [fields [-> Ht]]].
      rewrite !(callbacks_loop_step _ _ _ _ Ht).
      destruct (result (getattr "_target_" (NDict fields))); [|reflexivity].
      destruct (instantiate fields); [|reflexivity]. now rewrite IH.
    + rewrite !(callbacks_loop_pass _ _ _ Hfirst). apply IH.
Qed.

Lemma loggers_loop_skip (before after : dict) (entry : string * node)
      (acc : list Obj) :
  has_target entry = false ->
  loggers_loop instantiate (before ++ entry :: after) acc
  = loggers_loop instantiate (before ++ after) acc.
Proof.
  intros Hskip. revert acc.
  induction before as [|first rest IH]; intros acc.
  - now apply loggers_loop_pass.
  - cbn [app]. destruct (has_target first) eqn:Hfirst.
    + destruct (has_target_true _ Hfirst) as [name [fields [-> Ht]]].
      rewrite !(loggers_loop_step _ _ _ _ Ht).
      destruct (result (getattr "_target_" (NDict fields))); [|reflexivity].
      destruct (instantiate fields); [|reflexivity]. now rewrite IH.
    + rewrite !(loggers_loop_pass _ _ _ Hfirst). apply IH.
Qed.

Lemma filter_has_target_skip (before after : dict) (entry : string * node) :
  has_target entry = false ->
  filter has_target (before ++ entry :: after)
  = filter has_target (before ++ after).
Proof.
  intros Hskip. rewrite !filter_app. simpl. now rewrite Hskip.
Qed.

(** The two loops leave the same trace, up to the wording of the
    messages. *)
Lemma loops_same_trace (entries : dict) (acc : list Obj) :
  map erase_wording (events (callbacks_loop instantiate entries acc))
  = map erase_wording (events (loggers_loop instantiate entries acc)).
Proof.
  revert acc. induction entries as [|entry rest IH]; intros acc.
  - reflexivity.
  - destruct (has_target entry) eqn:Hentry.
    + destruct (has_target_true _ Hentry) as [name [fields [-> Ht]]].
      rewrite (callbacks_loop_step _ _ _ _ Ht), (loggers_loop_step _ _ _ _ Ht).
      destruct (result (getattr "_target_" (NDict fields))); [|reflexivity].
      destruct (instantiate fields); [|reflexivity].
      cbn [events fst map erase_wording filter is_fmt].
      change (fst ?x) with (events x). now rewrite IH.
    + rewrite (callbacks_loop_pass _ _ _ Hentry),
        (loggers_loop_pass _ _ _ Hentry).
      apply IH.
Qed.

(** An entry is skipped exactly when it is not a mapping, or is a mapping
    without the reserved key. *)
Lemma has_target_false (entry : string * node) :
  has_target entry = false <->
  (is_DictConfig (snd entry) = false
   \/ exists fields, snd entry = NDict fields
                     /\ contains "_target_" fields = false).
Proof.
  destruct entry as [name e]. unfold has_target. simpl.
  destruct e; simpl; try (split; [now left | reflexivity]).
  split.
  - intros H. right. eauto.
  - intros [H | [fields' [Heq H]]]; [discriminate|]. now injection Heq as ->.
Qed.

(** A list none of whose entries has a target gives no object, raises
    nothing and logs nothing. *)
Lemma callbacks_loop_nothing (entries : dict) (acc : list Obj) :
  forallb (fun entry => negb (has_target entry)) entries = true ->
  callbacks_loop instantiate entries acc = ([], Return acc).
Proof.
  revert acc. induction entries as [|entry rest IH]; intros acc H.
  - reflexivity.
  - simpl in H. apply andb_true_iff in H as [He Hrest].
    apply negb_true_iff in He.
    rewrite (callbacks_loop_pass _ _ _ He). now apply IH.
Qed.

(** C3, amended. An argument of either instantiator that Python finds true
    and that is not a [DictConfig], such as a non-zero scalar or a sequence
    that is not empty, makes the call raise a type error; nothing is logged
    before. *)
Theorem instantiators_reject_non_mapping (config : pyobj) :
  truthy_obj config = true ->
  isinstance_DictConfig config = false ->
  instantiate_callbacks instantiate config
  = ([], Raise (TypeError "Callbacks config must be a DictConfig!"))
  /\ instantiate_loggers instantiate config
     = ([], Raise (TypeError "Logger config must be a DictConfig!")).
Proof.
  intros Htrue Hnot.
  unfold instantiate_callbacks, instantiate_loggers. rewrite Htrue. simpl.
  destruct config as [n | d | l]; [|split; reflexivity ..].
  destruct n; try (split; reflexivity). discriminate.
Qed.


(** C8, amended. An entry of the mapping that is a mapping without
    [_target_], or a value that is no mapping and that can be handed out
    (it is neither missing nor an interpolation that fails), is skipped in
    silence: with it or without it, the loops leave the same trace and end
    alike, and the instantiators return the same objects or raise the same
    exception. *)
Theorem instantiators_skip_untargeted_entries
        (before after : dict) (entry : string * node) :
  has_target entry = false ->
  readable (snd entry) = true ->
  (forall acc,
      callbacks_loop instantiate (before ++ entry :: after) acc
      = callbacks_loop instantiate (before ++ after) acc)
  /\ (forall acc,
         loggers_loop instantiate (before ++ entry :: after) acc
         = loggers_loop instantiate (before ++ after) acc)
  /\ result (instantiate_callbacks instantiate
               (Node (NDict (before ++ entry :: after))))
     = result (instantiate_callbacks instantiate
                 (Node (NDict (before ++ after))))
  /\ result (instantiate_loggers instantiate
               (Node (NDict (before ++ entry :: after))))
     = result (instantiate_loggers instantiate
                 (Node (NDict (before ++ after)))).
Proof.
  intros Hskip Hread. repeat split.
  - intros acc. now apply callbacks_loop_skip.
  - intros acc. now apply loggers_loop_skip.
  - rewrite !instantiate_callbacks_result. unfold instantiate_all.
    now rewrite first_unreadable_skip, filter_has_target_skip.
  - rewrite !instantiate_loggers_result. unfold instantiate_all.
    now rewrite first_unreadable_skip, filter_has_target_skip.
Qed.

(** C9. An absent or empty argument (one that Python finds false) makes
    either instantiator log one warning and return the empty list; nothing
    is raised. *)
Theorem instantiators_empty_config (config : pyobj) :
  truthy_obj config = false ->
  instantiate_callbacks instantiate config
  = ([Log Warning [Lit "No callback configs found! Skipping.."]], Return [])
  /\ instantiate_loggers instantiate config
     = ([Log Warning [Lit "No logger configs found! Skipping..."]],
        Return []).
Proof.
  intros Hfalse. unfold instantiate_callbacks, instantiate_loggers.
  rewrite Hfalse. split; reflexivity.
Qed.

(** C10. The two instantiators compute the same function: on every
    argument they end alike (the same list of objects, or an exception of
    the same class), their traces differ in the wording of the messages
    only, and on a mapping both end as [items] and then the constructions
    of the entries with a target, in order, do. *)
Theorem instantiators_agree (config : pyobj) :
  same_ending (result (instantiate_callbacks instantiate config))
              (result (instantiate_loggers instantiate config))
  /\ map erase_wording (events (instantiate_callbacks instantiate config))
     = map erase_wording (events (instantiate_loggers instantiate config))
  /\ forall items,
      result (instantiate_callbacks instantiate (Node (NDict items)))
      = instantiate_all instantiate items
      /\ result (instantiate_loggers instantiate (Node (NDict items)))
         = instantiate_all instantiate items.
Proof.
  split; [|split].
  - destruct (truthy_obj config) eqn:Ht.
    + destruct config as [n | d | l];
        [| unfold instantiate_callbacks, instantiate_loggers;
           rewrite Ht; reflexivity ..].
      destruct n;
        try (unfold instantiate_callbacks, instantiate_loggers;
             rewrite Ht; reflexivity).
      rewrite instantiate_callbacks_result, instantiate_loggers_result.
      now destruct (instantiate_all instantiate fields).
    + unfold instantiate_callbacks, instantiate_loggers.
      rewrite Ht. reflexivity.
  - destruct config as [n | d | l];
      try (unfold instantiate_callbacks, instantiate_loggers;
           now destruct (truthy_obj _)).
    destruct n;
      try (unfold instantiate_callbacks, instantiate_loggers;
           now destruct (truthy_obj _)).
    destruct fields as [|entry rest]; [reflexivity|].
    rewrite instantiate_callbacks_run, instantiate_loggers_run.
    destruct (first_unreadable (entry :: rest)); [reflexivity|].
    apply loops_same_trace.
  - intros items. split;
      [apply instantiate_callbacks_result | apply instantiate_loggers_result].
Qed.

End WithCollaborator.

(** C3, as stated, fails: the test is [not config], so a scalar that is
    there but that Python finds false, such as [0] or [False], is taken for
    an empty config: the call warns and returns the empty list, and raises
    no type error. *)
Lemma instantiators_false_scalar :
  isinstance_DictConfig (Node (NInt 0)) = false
  /\ instantiate_callbacks Examples.name_of_target (Node (NInt 0))
     = ([Log Warning [Lit "No callback configs found! Skipping.."]],
        Return [])
  /\ instantiate_loggers Examples.name_of_target (Node (NBool false))
     = ([Log Warning [Lit "No logger configs found! Skipping..."]],
        Return []).
Proof. repeat split. Qed.

(** C8, as stated, fails: an entry that is no mapping but whose value is
    still missing is not skipped. [items] raises on it before the loop
    sees any entry, so that nothing is constructed or logged. *)
Lemma instantiators_missing_entry_raises :
  has_target ("note", NMissing) = false
  /\ instantiate_callbacks Examples.name_of_target
       (Node (NDict Examples.annotated_callbacks))
     = ([], Raise (MissingMandatoryValue "note"))
  /\ instantiate_loggers Examples.name_of_target
       (Node (NDict Examples.annotated_callbacks))
     = ([], Raise (MissingMandatoryValue "note")).
Proof. repeat split. Qed.

(** A construction that raises ends the call with its exception. *)
Example instantiators_collaborator_raises :
  instantiate_callbacks Examples.name_of_target
    (Node (NDict [("early_stopping", Examples.early_stopping);
                  ("broken", NDict [("_target_", NInt 7)])]))
  = ([Log Info [Lit "Instantiating callback <";
                Fmt (NStr "lightning.pytorch.callbacks.EarlyStopping");
                Lit ">"];
      Log Info [Lit "Instantiating callback <"; Fmt (NInt 7); Lit ">"]],
     Raise (InstantiationException "cannot locate the target")).
Proof. reflexivity. Qed.

(** An entry whose target is an interpolation that fails counts as having
    a target; the log line that reads it raises. *)
Example instantiators_unresolved_target :
  instantiate_callbacks Examples.name_of_target
    (Node (NDict [("broken", NDict [("_target_", NUnresolved)])]))
  = ([], Raise (InterpolationKeyError "_target_")).
Proof. reflexivity. Qed.

(** A scalar and a sequence are rejected. *)
Lemma instantiators_reject_non_mapping_witness :
  (truthy_obj (Node (NStr "callbacks")) = true
   /\ isinstance_DictConfig (Node (NStr "callbacks")) = false
   /\ instantiate_callbacks Examples.name_of_target (Node (NStr "callbacks"))
      = ([], Raise (TypeError "Callbacks config must be a DictConfig!")))
  /\ (truthy_obj (Node (NList [NInt 1])) = true
      /\ isinstance_DictConfig (Node (NList [NInt 1])) = false
      /\ instantiate_loggers Examples.name_of_target (Node (NList [NInt 1]))
         = ([], Raise (TypeError "Logger config must be a DictConfig!"))).
Proof.
  split.
  - split; [reflexivity | split; [reflexivity|]].
    apply (instantiators_reject_non_mapping Examples.name_of_target
             (Node (NStr "callbacks"))); reflexivity.
  - split; [reflexivity | split; [reflexivity|]].
    apply (instantiators_reject_non_mapping Examples.name_of_target
             (Node (NList [NInt 1]))); reflexivity.
Defined.


(** An annotation between two callbacks. *)
Lemma instantiators_skip_untargeted_entries_witness :
  (has_target Examples.annotation = false
   /\ readable (snd Examples.annotation) = true)
  /\ result (instantiate_callbacks Examples.name_of_target
               (Node (NDict ([("early_stopping", Examples.early_stopping)]
                             ++ Examples.annotation
                             :: [("model_checkpoint",
                                  Examples.model_checkpoint)]))))
     = result (instantiate_callbacks Examples.name_of_target
                 (Node (NDict ([("early_stopping", Examples.early_stopping)]
                               ++ [("model_checkpoint",
                                    Examples.model_checkpoint)])))).
Proof.
  split; [split; reflexivity|].
  apply (instantiators_skip_untargeted_entries Examples.name_of_target
           [("early_stopping", Examples.early_stopping)]
           [("model_checkpoint", Examples.model_checkpoint)]
           Examples.annotation); reflexivity.
Defined.

(** [None] and the empty mapping. *)
Lemma instantiators_empty_config_witness :
  (truthy_obj (Node NNone) = false
   /\ instantiate_callbacks Examples.name_of_target (Node NNone)
      = ([Log Warning [Lit "No callback configs found! Skipping.."]],
         Return []))
  /\ (truthy_obj (Node (NDict [])) = false
      /\ instantiate_loggers Examples.name_of_target (Node (NDict []))
         = ([Log Warning [Lit "No logger configs found! Skipping..."]],
            Return [])).
Proof.
  split.
  - split; [reflexivity|].
    apply (instantiators_empty_config Examples.name_of_target (Node NNone)).
    reflexivity.
  - split; [reflexivity|].
    apply (instantiators_empty_config Examples.name_of_target
             (Node (NDict []))).
    reflexivity.
Defined.

End InstantiatorsFacts.

(** ** The tree printer *)

Module TreeFacts.
Import Py Eff RichUtils PyFacts EffFacts Observations.

Lemma print_order_loop_spec (config : dict) (print_order queue : list string) :
  print_order_loop config print_order queue
  = (map missing_field_warning
         (filter (fun field => negb (contains field config)) print_order),
     Return (queue ++ filter (fun field => contains field config) print_order)).
Proof.
  revert queue. induction print_order as [|field rest IH]; intros queue.
  - simpl. now rewrite app_nil_r.
  - simpl. destruct (contains field config); simpl.
    + rewrite IH. now rewrite <- app_assoc.
    + unfold mbind, W_Monad, bind, emit. now rewrite IH.
Qed.

Lemma other_fields_loop_spec (fields queue : list string) :
  NoDup fields ->
  other_fields_loop fields queue
  = queue ++ filter (fun field => negb (mem field queue)) fields.
Proof.
  intros Hnodup. revert queue.
  induction Hnodup as [|field rest Hnotin _ IH]; intros queue.
  - simpl. now rewrite app_nil_r.
  - simpl. destruct (mem field queue) eqn:Hmem; simpl.
    + apply IH.
    + rewrite IH, <- app_assoc. simpl. do 2 f_equal.
      apply filter_ext_in. intros other Hin.
      rewrite mem_app. simpl. rewrite orb_false_r.
      destruct (String.eqb other field) eqn:E; [|now rewrite orb_false_r].
      apply String.eqb_eq in E. subst other. contradiction.
Qed.

Lemma other_fields_loop_In (x : string) (fields queue : list string) :
  In x (other_fields_loop fields queue) <-> In x queue \/ In x fields.
Proof.
  revert queue. induction fields as [|field rest IH]; intros queue; simpl.
  - tauto.
  - destruct (mem field queue) eqn:Hmem; simpl; rewrite IH.
    + apply mem_In in Hmem. split; [tauto|].
      intros [H | [<- | H]]; auto.
    + rewrite in_app_iff. simpl. tauto.
Qed.

(** The queue, whatever the root. *)
Lemma build_queue_general (config : dict) (print_order : list string) :
  build_queue config print_order
  = (map missing_field_warning
         (filter (fun field => negb (contains field config)) print_order),
     Return (queue_of config print_order)).
Proof.
  unfold build_queue, queue_of. rewrite print_order_loop_spec.
  unfold mbind, W_Monad, bind, ret. now rewrite app_nil_r.
Qed.

(** Every queued name is a key of the root. *)
Lemma queue_keys (config : dict) (print_order : list string)
      (field : string) :
  In field (queue_of config print_order) <-> In field (keys config).
Proof.
  unfold queue_of. rewrite other_fields_loop_In. split; [|auto].
  intros [Hin | Hin]; [|exact Hin].
  apply filter_In in Hin as [_ Hpresent].
  destruct (contains_lookup _ _ Hpresent) as [v [Hv _]].
  apply mem_In. rewrite lookup_mem. now rewrite Hv.
Qed.

Lemma shows_readable (resolve : bool) (stored : node) :
  shows resolve stored = true -> readable stored = true.
Proof. unfold shows. intros H. now apply andb_true_iff in H. Qed.

Lemma renders_readable (resolve : bool) (config : dict) :
  renders resolve config = true -> all_readable config = true.
Proof.
  unfold renders, all_readable. rewrite !forallb_forall.
  intros H entry Hin. eapply shows_readable. now apply H.
Qed.

(** When the root renders, every queued field can be shown. *)
Lemma renders_queue (resolve : bool) (config : dict)
      (print_order : list string) :
  renders resolve config = true ->
  forallb (shows_at resolve config) (queue_of config print_order) = true.
Proof.
  intros Hrenders. apply forallb_forall. intros field Hin.
  apply queue_keys in Hin. apply mem_In in Hin. rewrite lookup_mem in Hin.
  unfold shows_at. destruct (lookup field config) as [v|] eqn:Hv;
    [|discriminate].
  apply lookup_In in Hv. unfold renders in Hrenders.
  rewrite forallb_forall in Hrenders. exact (Hrenders _ Hv).
Qed.


(** One turn of the loop over the queue, on a field that can be shown. *)
Lemma branches_loop_shown (config : dict) (resolve : bool) (field : string)
      (rest : list string) (tree : list (string * syntax)) :
  shows_at resolve config field = true ->
  branches_loop config resolve (field :: rest) tree
  = branches_loop config resolve rest
      (tree ++ [(field, branch_content resolve (dict_get field config))]).
Proof.
  unfold shows_at, dict_get. cbn [branches_loop]. unfold getitem.
  destruct (lookup field config) as [stored|]; [|discriminate].
  unfold shows.
  destruct stored; simpl; try discriminate; intros Hshown;
    unfold mbind, W_Monad, bind, ret, to_yaml;
    try (match goal with
         | |- context [branches_loop config resolve rest ?t] =>
             now destruct (branches_loop config resolve rest t)
         end).
  apply negb_true_iff in Hshown. simpl. rewrite Hshown. unfold ret.
  match goal with
  | |- context [branches_loop config resolve rest ?t] =>
      now destruct (branches_loop config resolve rest t)
  end.
Qed.

(** One turn on a field that cannot: the access or the rendering
    raises. *)
Lemma branches_loop_hidden (config : dict) (resolve : bool) (field : string)
      (rest : list string) (tree : list (string * syntax)) :
  shows_at resolve config field = false ->
  exists e, branches_loop config resolve (field :: rest) tree = ([], Raise e).
Proof.
  unfold shows_at. cbn [branches_loop]. unfold getitem.
  destruct (lookup field config) as [stored|]; [|eexists; reflexivity].
  unfold shows.
  destruct stored; simpl; try discriminate; intros Hhidden;
    try (eexists; reflexivity).
  apply negb_false_iff in Hhidden. simpl in Hhidden.
  unfold mbind, W_Monad, bind, ret, to_yaml. simpl. rewrite Hhidden.
  eexists; reflexivity.
Qed.

(** The loop over the queue: all the branches, or an exception and no
    branch. *)
Lemma branches_loop_run (config : dict) (resolve : bool)
      (queue : list string) (tree : list (string * syntax)) :
  match forallb (shows_at resolve config) queue with
  | true =>
      branches_loop config resolve queue tree
      = ([], Return (tree ++ branches_of config resolve queue))
  | false =>
      exists e, branches_loop config resolve queue tree = ([], Raise e)
  end.
Proof.
  revert tree. induction queue as [|field rest IH]; intros tree.
  - simpl. now rewrite app_nil_r.
  - cbn [forallb]. destruct (shows_at resolve config field) eqn:Hfield.
    + rewrite (branches_loop_shown _ _ _ _ _ Hfield). cbn [andb].
      specialize (IH (tree ++ [(field, branch_content resolve
                                          (dict_get field config))])).
      destruct (forallb (shows_at resolve config) rest); [|exact IH].
      rewrite IH. unfold branches_of. cbn [map].
      now rewrite <- app_assoc.
    + now apply branches_loop_hidden.
Qed.

(** The saving of the tree, by what [output_file] finds. *)
Lemma save_tree_cases (can_open : path -> bool) (config : dict)
      (tree : printable) :
  match output_file can_open config "config_tree.log" with
  | Some file =>
      save_tree can_open config tree = ([PrintToFile file tree], Return tt)
  | None => exists e, save_tree can_open config tree = ([], Raise e)
  end.
Proof.
  unfold output_file, save_tree, getattr, resolve, make_path, open_w, mbind,
    W_Monad, bind, ret, raise, emit.
  destruct (lookup "paths" config) as [paths|]; [|eexists; reflexivity].
  destruct paths; try (eexists; reflexivity).
  destruct (lookup "hydra_output_dir" fields) as [dir|];
    [|eexists; reflexivity].
  destruct dir; try (eexists; reflexivity).
  simpl.
  destruct (has_nul s); [eexists; reflexivity|].
  simpl.
  destruct (can_open (Path s "config_tree.log"));
    [reflexivity | eexists; reflexivity].
Qed.

(** A run of the printer: the warnings; then, when every queued field can
    be shown, the tree on the console and the saving if it is asked for;
    an exception and no tree otherwise. *)
Lemma print_config_tree_run
      (can_open : path -> bool) (config : dict) (print_order : list string)
      (resolve save_to_file : bool) :
  let warnings :=
    map missing_field_warning
        (filter (fun field => negb (contains field config)) print_order) in
  let branches :=
    branches_of config resolve (queue_of config print_order) in
  let saving :=
    if save_to_file then save_tree can_open config (Tree branches)
    else ret tt in
  match forallb (shows_at resolve config) (queue_of config print_order) with
  | true =>
      print_config_tree can_open config print_order resolve save_to_file
      = (warnings ++ Print (Tree branches) :: events saving, result saving)
  | false =>
      exists e,
        print_config_tree can_open config print_order resolve save_to_file
        = (warnings, Raise e)
  end.
Proof.
  intros warnings branches saving. subst warnings branches saving.
  pose proof (branches_loop_run config resolve
                (queue_of config print_order) []) as Hbranches.
  destruct (forallb (shows_at resolve config) (queue_of config print_order)).
  - apply injective_projections; cbn [fst snd].
    + change (fst ?x) with (events x). unfold print_config_tree.
      rewrite events_bind, build_queue_general. cbn [events result fst snd].
      rewrite events_bind, Hbranches. cbn [events result fst snd app].
      rewrite events_bind. cbn [events result fst snd emit app].
      now destruct save_to_file.
    + change (snd ?x) with (result x). unfold print_config_tree.
      rewrite result_bind, build_queue_general. cbn [events result fst snd].
      rewrite result_bind, Hbranches. cbn [events result fst snd app].
      rewrite result_bind. cbn [events result fst snd emit app].
      now destruct save_to_file.
  - destruct Hbranches as [e Hbranches]. exists e.
    apply injective_projections; cbn [fst snd].
    + change (fst ?x) with (events x). unfold print_config_tree.
      rewrite events_bind, build_queue_general. cbn [events result fst snd].
      rewrite events_bind, Hbranches. cbn [events result fst snd app].
      now rewrite app_nil_r.
    + change (snd ?x) with (result x). unfold print_config_tree.
      rewrite result_bind, build_queue_general. cbn [events result fst snd].
      now rewrite result_bind, Hbranches.
Qed.

Lemma labels_branches_of (config : dict) (resolve : bool)
      (queue : list string) :
  map fst (branches_of config resolve queue) = queue.
Proof.
  unfold branches_of. rewrite map_map. simpl. apply map_id.
Qed.

(** The queue of a root whose keys differ and whose values can all be
    handed out. *)
Lemma queue_of_readable (config : dict) (print_order : list string) :
  NoDup (keys config) ->
  all_readable config = true ->
  queue_of config print_order
  = filter (fun field => contains field config) print_order
    ++ filter (fun field => negb (mem field print_order)) (keys config).
Proof.
  intros Hnodup Hread. unfold queue_of.
  rewrite (other_fields_loop_spec _ _ Hnodup). f_equal.
  apply filter_ext_in. intros field Hin. f_equal.
  apply mem_In in Hin. rewrite <- (contains_readable _ _ Hread) in Hin.
  apply eq_true_iff_eq. rewrite !mem_In, filter_In. intuition.
Qed.

(** C5, amended. For a root whose top-level values can all be shown (none
    is missing, none is an interpolation that fails, and with [resolve]
    no mapping holds such an interpolation), the tree that
    [print_config_tree] prints has one branch per field: first the names
    of the preference list that are fields of the root, in the order of
    the list, then the other fields of the root in the root's order. The
    names that the root lacks are warned about, before the tree is
    printed, and get no branch. A tree saved to a file is the same tree. *)
Theorem print_config_tree_order
        (can_open : path -> bool) (config : dict)
        (print_order : list string) (resolve save_to_file : bool) :
  NoDup (keys config) ->
  renders resolve config = true ->
  exists branches rest,
    events (print_config_tree can_open config print_order resolve
                              save_to_file)
    = map missing_field_warning
          (filter (fun field => negb (mem field (keys config))) print_order)
      ++ Print (Tree branches) :: rest
    /\ map fst branches
       = filter (fun field => mem field (keys config)) print_order
         ++ filter (fun field => negb (mem field print_order)) (keys config)
    /\ (rest = []
        \/ exists file, rest = [PrintToFile file (Tree branches)]).
Proof.
  intros Hnodup Hrenders.
  pose proof (renders_readable _ _ Hrenders) as Hread.
  pose proof (print_config_tree_run can_open config print_order resolve
                save_to_file) as Hrun.
  cbv zeta in Hrun. rewrite (renders_queue _ _ print_order Hrenders) in Hrun.
  rewrite Hrun. cbn [events fst].
  exists (branches_of config resolve (queue_of config print_order)).
  eexists. split; [|split].
  - f_equal. f_equal. apply filter_ext. intros field.
    now rewrite (contains_readable _ _ Hread).
  - rewrite labels_branches_of, (queue_of_readable _ _ Hnodup Hread).
    f_equal. apply filter_ext. intros field.
    now rewrite (contains_readable _ _ Hread).
  - destruct save_to_file; [|now left].
    pose proof (save_tree_cases can_open config
                  (Tree (branches_of config resolve
                           (queue_of config print_order)))) as Hsave.
    destruct (output_file can_open config "config_tree.log") as [file|].
    + rewrite Hsave. right. now exists file.
    + destruct Hsave as [e ->]. now left.
Qed.

(** C5, as stated, fails: on a root whose field [model] is still missing,
    the name [model] of the preference list is warned about as if the root
    had no such field, it is queued all the same with the other fields of
    the root, and the call raises on it before any tree is printed. *)
Lemma print_config_tree_missing_field :
  mem "model" (keys Examples.unfinished_config) = true
  /\ print_config_tree Examples.any_file Examples.unfinished_config
                       ["model"] false false
     = ([Log Warning
             [Lit "Field '"; Fmt (NStr "model");
              Lit "' not found in config. Skipping '";
              Fmt (NStr "model"); Lit "' config printing..."]],
        Raise (MissingMandatoryValue "model")).
Proof. split; reflexivity. Qed.

(** Preference list [model, callbacks], root fields callbacks, model,
    extra: the branches are model, callbacks, extra. *)
Lemma print_config_tree_order_witness :
  (NoDup (keys Examples.tree_config)
   /\ renders false Examples.tree_config = true)
  /\ exists branches rest,
      events (print_config_tree Examples.any_file Examples.tree_config
                                ["model"; "callbacks"] false false)
      = [] ++ Print (Tree branches) :: rest
      /\ map fst branches = ["model"; "callbacks"; "extra"].
Proof.
  assert (Hnodup : NoDup (keys Examples.tree_config)).
  { repeat constructor; simpl; intuition discriminate. }
  split; [split; [exact Hnodup | reflexivity]|].
  destruct (print_config_tree_order Examples.any_file Examples.tree_config
              ["model"; "callbacks"] false false Hnodup eq_refl)
    as [branches [rest [Hevents [Hlabels _]]]].
  exists branches, rest. split; [exact Hevents | exact Hlabels].
Defined.

(** The same run, evaluated; with a name that the root lacks. *)
Example print_config_tree_example :
  map fst
      match events (print_config_tree Examples.any_file Examples.tree_config
                                      ["model"; "trainer"; "callbacks"]
                                      false false) with
      | [Log Warning _; Print (Tree branches)] => branches
      | _ => []
      end
  = ["model"; "callbacks"; "extra"].
Proof. reflexivity. Qed.

End TreeFacts.

(** ** Tag enforcement *)

Module TagFacts.
Import Py Eff RichUtils PyFacts EffFacts Observations.

(** Takes a run apart along the accesses that it makes. *)
Ltac case_run :=
  repeat (simpl;
          match goal with
          | |- context [match lookup ?k ?d with _ => _ end] =>
              destruct (lookup k d) as [[]|]
          | |- context [if ?b then _ else _] => destruct b
          end).

(** Closes a goal about a run that has been evaluated: its final config,
    that it asked nothing and that it did not raise the error of the
    multirun. *)
Ltac finish_run :=
  unfold ret, raise, emit; simpl;
  do 2 eexists;
  split; [reflexivity|];
  split; [reflexivity|];
  discriminate.

Lemma dict_get_lookup (key : string) (d : dict) (v : node) :
  lookup key d = Some v -> readable v = true -> dict_get key d = v.
Proof. unfold dict_get. intros -> Hv. now destruct v. Qed.

(** What [get] finds is never a missing value. *)
Lemma dict_get_unreadable (key : string) (d : dict) :
  readable (dict_get key d) = false -> dict_get key d = NUnresolved.
Proof.
  unfold dict_get. destruct (lookup key d) as [v|]; [|discriminate].
  destruct v; try discriminate; reflexivity.
Qed.

Lemma falsy_readable (v : node) : truthy v = false -> readable v = true.
Proof. now destruct v. Qed.


Lemma core_tags_assigned (config core : dict) (tags : node) :
  core_tags (assign "core" (NDict (assign "tags" tags core)) config)
  = Some tags.
Proof.
  unfold core_tags, subfield.
  now rewrite lookup_assign_same, lookup_assign_same.
Qed.

Lemma output_file_assign_core (can_open : path -> bool) (config : dict)
      (v : node) (name : string) :
  output_file can_open (assign "core" v config) name
  = output_file can_open config name.
Proof.
  unfold output_file. now rewrite lookup_assign_other by discriminate.
Qed.

Section WithEnvironment.

Context (can_open : path -> bool) (hydra_job : dict) (entered : string).

(** The run up to the first test, on a config with a [core] mapping whose
    tags can be read. *)
Lemma enforce_tags_unfold (save_to_file : bool) (config core : dict) :
  lookup "core" config = Some (NDict core) ->
  readable (dict_get "tags" core) = true ->
  enforce_tags can_open hydra_job entered save_to_file config
  = st_bind (if negb (truthy (dict_get "tags" core))
             then ask_for_tags hydra_job entered else st_ret tt)
            (fun _ => if save_to_file then save_tags can_open else st_ret tt)
            config.
Proof.
  intros Hcore Hread. unfold enforce_tags.
  unfold mbind, St_Monad. unfold st_bind at 1. unfold read, ret.
  unfold st_bind at 1. unfold lift_w at 1. unfold get_method at 1.
  rewrite (dict_get_lookup _ _ _ Hcore eq_refl). unfold ret.
  unfold st_bind at 1. unfold lift_w at 1. unfold get_method at 1.
  destruct (dict_get "tags" core); try discriminate; unfold ret;
    now destruct (st_bind _ _ config) as [config' [out r]].
Qed.

(** When the tags are an interpolation that fails, [get] raises. *)
Lemma enforce_tags_unresolved (save_to_file : bool) (config core : dict) :
  lookup "core" config = Some (NDict core) ->
  dict_get "tags" core = NUnresolved ->
  enforce_tags can_open hydra_job entered save_to_file config
  = (config, ([], Raise (InterpolationKeyError "tags"))).
Proof.
  intros Hcore Htags. unfold enforce_tags.
  unfold mbind, St_Monad. unfold st_bind at 1. unfold read, ret.
  unfold st_bind at 1. unfold lift_w at 1. unfold get_method at 1.
  rewrite (dict_get_lookup _ _ _ Hcore eq_refl). unfold ret.
  unfold st_bind at 1. unfold lift_w at 1. unfold get_method at 1.
  now rewrite Htags.
Qed.

(** Without a [core] mapping the run raises at once. *)
Lemma enforce_tags_no_core (save_to_file : bool) (config : dict) :
  (forall core, lookup "core" config <> Some (NDict core)) ->
  exists e,
    enforce_tags can_open hydra_job entered save_to_file config
    = (config, ([], Raise e)).
Proof.
  intros Hcore. unfold enforce_tags.
  unfold mbind, St_Monad. unfold st_bind at 1. unfold read, ret.
  unfold st_bind at 1. unfold lift_w at 1. unfold get_method at 1.
  unfold dict_get.
  destruct (lookup "core" config) as [core|] eqn:E.
  - destruct core;
      try (unfold ret, st_bind, lift_w, get_method, raise;
           eexists; reflexivity).
    now destruct (Hcore fields).
  - unfold ret, st_bind, lift_w, get_method, raise.
    eexists; reflexivity.
Qed.

(** Saving the tags leaves the config as it is, asks nothing and does not
    raise the error of the multirun. *)
Lemma save_tags_spec (config : dict) :
  exists out r,
    save_tags can_open config = (config, (out, r))
    /\ no_prompt out = true
    /\ r <> Raise (ValueError "Specify tags before launching a multirun!").
Proof.
  unfold save_tags, mbind, St_Monad, st_bind, read, lift_w, getattr,
    resolve, make_path, open_w, ret, raise, emit.
  case_run; finish_run.
Qed.

(** The saving of the tags, by what [output_file] finds. *)
Lemma save_tags_cases (config : dict) (tags : node) :
  core_tags config = Some tags ->
  readable tags = true ->
  match output_file can_open config "tags.log" with
  | Some file =>
      save_tags can_open config
      = (config, ([PrintToFile file (Value tags)], Return tt))
  | None => exists e, save_tags can_open config = (config, ([], Raise e))
  end.
Proof.
  intros Htags Hread. unfold core_tags, subfield in Htags.
  destruct (lookup "core" config) as [core|] eqn:Hcore; [|discriminate].
  destruct core; try discriminate.
  unfold output_file, save_tags, mbind, St_Monad, st_bind, read, lift_w,
    getattr, make_path, open_w, ret, raise, emit.
  destruct (lookup "paths" config) as [paths|];
    [|eexists; reflexivity].
  destruct paths; try (eexists; reflexivity).
  unfold resolve, ret. simpl.
  destruct (lookup "hydra_output_dir" fields0) as [dir|];
    [|eexists; reflexivity].
  destruct dir; try (eexists; reflexivity).
  simpl. destruct (has_nul s); [eexists; reflexivity|].
  simpl. destruct (can_open (Path s "tags.log"));
    [|eexists; reflexivity].
  rewrite Hcore. simpl. rewrite Htags.
  destruct tags; try discriminate; reflexivity.
Qed.

(** The block that asks for tags, in a multirun. *)
Lemma ask_for_tags_unattended (config : dict) :
  contains "id" hydra_job = true ->
  ask_for_tags hydra_job entered config
  = (config,
     ([], Raise (ValueError "Specify tags before launching a multirun!"))).
Proof.
  intros Hid. unfold ask_for_tags. rewrite Hid. reflexivity.
Qed.

(** The block that asks for tags, in a single run: the tags are written,
    then the log line reads the top-level field [tags]. *)
Lemma ask_for_tags_interactive (config core : dict) :
  lookup "core" config = Some (NDict core) ->
  contains "id" hydra_job = false ->
  ask_for_tags hydra_job entered config
  = (assign "core" (NDict (assign "tags" (tags_of_line entered) core)) config,
     ([Log Warning
           [Lit "No tags provided in config. Prompting user to input tags..."];
       Ask "Enter a list of comma separated tags" "dev"]
      ++ match result (getattr "tags" (NDict config)) with
         | Return shown => [Log Info [Lit "Tags: "; Fmt shown]]
         | Raise _ => []
         end,
      match result (getattr "tags" (NDict config)) with
      | Return _ => Return tt
      | Raise e => Raise e
      end)).
Proof.
  intros Hcore Hid. unfold ask_for_tags. rewrite Hid.
  unfold mbind, St_Monad, st_bind, read, lift_w, st_ret, write,
    Prompt_ask, mbind, W_Monad, bind, getattr, setattr, ret, raise, emit.
  simpl. rewrite Hcore. simpl.
  rewrite lookup_assign_other by discriminate.
  unfold tags_of_line.
  destruct (lookup "tags" config) as [shown|]; [|reflexivity].
  now destruct shown.
Qed.

(** With tags in the config, only the saving is left. *)
Lemma enforce_tags_tagged (save_to_file : bool) (config core : dict) :
  lookup "core" config = Some (NDict core) ->
  truthy (dict_get "tags" core) = true ->
  readable (dict_get "tags" core) = true ->
  enforce_tags can_open hydra_job entered save_to_file config
  = if save_to_file then save_tags can_open config
    else (config, ([], Return tt)).
Proof.
  intros Hcore Htags Hread.
  rewrite (enforce_tags_unfold _ _ _ Hcore Hread), Htags.
  unfold st_bind, st_ret, ret. simpl.
  destruct save_to_file; [|reflexivity].
  now destruct (save_tags can_open config) as [config' [out r]].
Qed.

(** With something under [core.tags] that Python finds true, the run asks
    nothing, leaves the config as it is and does not raise the error of the
    multirun. *)
Lemma enforce_tags_truthy (save_to_file : bool) (config core : dict) :
  lookup "core" config = Some (NDict core) ->
  truthy (dict_get "tags" core) = true ->
  exists out r,
    enforce_tags can_open hydra_job entered save_to_file config
    = (config, (out, r))
    /\ no_prompt out = true
    /\ r <> Raise (ValueError "Specify tags before launching a multirun!").
Proof.
  intros Hcore Htags.
  destruct (readable (dict_get "tags" core)) eqn:Hread.
  - rewrite (enforce_tags_tagged _ _ _ Hcore Htags Hread).
    destruct save_to_file; [apply save_tags_spec | finish_run].
  - rewrite (enforce_tags_unresolved _ _ _ Hcore
               (dict_get_unreadable _ _ Hread)).
    finish_run.
Qed.

(** Without tags, in a single run: the block that asks, then the saving on
    the config with the tags written. *)
Lemma enforce_tags_interactive (save_to_file : bool) (config core : dict) :
  lookup "core" config = Some (NDict core) ->
  truthy (dict_get "tags" core) = false ->
  contains "id" hydra_job = false ->
  exists out r,
    enforce_tags can_open hydra_job entered save_to_file config
    = (assign "core" (NDict (assign "tags" (tags_of_line entered) core))
              config,
       (Log Warning
            [Lit "No tags provided in config. Prompting user to input tags..."]
        :: Ask "Enter a list of comma separated tags" "dev" :: out,
        r))
    /\ no_prompt out = true
    /\ r <> Raise (ValueError "Specify tags before launching a multirun!").
Proof.
  intros Hcore Htags Hid.
  rewrite (enforce_tags_unfold _ _ _ Hcore (falsy_readable _ Htags)), Htags.
  simpl negb. cbv iota.
  unfold st_bind. rewrite (ask_for_tags_interactive _ _ Hcore Hid).
  unfold getattr, resolve.
  destruct (lookup "tags" config) as [shown|]; [|finish_run].
  destruct shown; try finish_run;
    (destruct save_to_file; [|finish_run]);
    match goal with
    | |- context [save_tags can_open ?c] =>
        destruct (save_tags_spec c) as [out [r [Hrun [Hquiet Hclass]]]];
        rewrite Hrun
    end;
    simpl; do 2 eexists; (split; [reflexivity|]); split; assumption.
Qed.

(** The config after a run: as before, or with [core.tags] assigned. *)
Lemma enforce_tags_final_config (save_to_file : bool) (config : dict) :
  final_config (enforce_tags can_open hydra_job entered save_to_file config)
  = config
  \/ exists core,
      lookup "core" config = Some (NDict core)
      /\ final_config
           (enforce_tags can_open hydra_job entered save_to_file config)
         = assign "core" (NDict (assign "tags" (tags_of_line entered) core))
                  config.
Proof.
  destruct (lookup "core" config) as [[]|] eqn:Hcore;
    try (left;
         destruct (enforce_tags_no_core save_to_file config) as [e ->];
         [intros core; rewrite Hcore; discriminate | reflexivity]).
  destruct (truthy (dict_get "tags" fields)) eqn:Htags.
  - left.
    now destruct (enforce_tags_truthy save_to_file _ _ Hcore Htags)
      as [out [r [-> _]]].
  - destruct (contains "id" hydra_job) eqn:Hid.
    + left.
      rewrite (enforce_tags_unfold _ _ _ Hcore (falsy_readable _ Htags)),
        Htags.
      simpl negb. cbv iota. unfold st_bind.
      now rewrite (ask_for_tags_unattended _ Hid).
    + right. exists fields. split; [reflexivity|].
      now destruct (enforce_tags_interactive save_to_file _ _
                      Hcore Htags Hid) as [out [r [-> _]]].
Qed.

End WithEnvironment.

(** X19. The list comprehension drops the empty pieces before it trims: a
    tag is empty exactly when a piece between two commas is blank but not
    empty. *)
Lemma parse_tags_empty_tag (line : string) :
  In "" (parse_tags line) <->
  exists piece, In piece (split "," line)
                /\ piece <> "" /\ all_space piece = true.
Proof.
  unfold parse_tags. rewrite in_map_iff. split.
  - intros [piece [Hstrip Hin]]. apply filter_In in Hin as [Hin Hne].
    exists piece. repeat split; [assumption | | now apply strip_empty].
    intros ->. discriminate.
  - intros [piece [Hin [Hne Hblank]]]. exists piece.
    split; [now apply strip_empty|].
    apply filter_In. split; [assumption|].
    apply negb_true_iff. now apply String.eqb_neq.
Qed.


(** The line of the specification. *)
Example tags_of_line_example :
  tags_of_line "a, b ,,c" = NList [NStr "a"; NStr "b"; NStr "c"].
Proof. reflexivity. Qed.

(** The log line after the prompt reads [config.tags], not
    [config.core.tags]: on a config without a top-level [tags] field the
    run raises there, after the tags have been written. *)
Example enforce_tags_log_line_raises :
  enforce_tags Examples.any_file Examples.single_run_job "a, b ,,c" false
               Examples.untagged_config
  = ([("core", NDict [("seed", NInt 42);
                      ("tags", NList [NStr "a"; NStr "b"; NStr "c"])]);
      ("paths", NDict [("hydra_output_dir", NStr "logs/runs/today")])],
     ([Log Warning
           [Lit "No tags provided in config. Prompting user to input tags..."];
       Ask "Enter a list of comma separated tags" "dev"],
      Raise (AttributeError "tags"))).
Proof. reflexivity. Qed.


(** The error of the multirun is not the only one of class [ValueError]:
    [open] refuses a path with a NUL with one, and OmegaConf derives its
    interpolation errors from it. *)
Example enforce_tags_other_value_errors :
  ending (enforce_tags Examples.any_file Examples.single_run_job "" true
            [("core", NDict [("tags", NList [NStr "existing"])]);
             ("paths",
              NDict [("hydra_output_dir",
                      NStr (String zero "logs"))])])
  = Raise (ValueError "embedded null byte")
  /\ ending (enforce_tags Examples.any_file Examples.single_run_job "" true
               [("core", NDict [("tags", NList [NStr "existing"])]);
                ("paths", NDict [("hydra_output_dir", NUnresolved)])])
     = Raise (InterpolationKeyError "hydra_output_dir")
  /\ is_ValueError (InterpolationKeyError "hydra_output_dir") = true.
Proof. repeat split. Qed.



(** C2, at an answer with a blank piece: the tag list written to
    [core.tags] holds an empty string, because the pieces are tested for
    emptiness before they are trimmed. *)
Theorem enforce_tags_blank_piece :
  enforce_tags Examples.any_file Examples.single_run_job "a, ,c" false
               Examples.untagged_config_with_tags
  = ([("tags", NList [NStr "legacy"]);
      ("core", NDict [("seed", NInt 42);
                      ("tags", NList [NStr "a"; NStr ""; NStr "c"])]);
      ("paths", NDict [("hydra_output_dir", NStr "logs/runs/today")])],
     ([Log Warning
           [Lit "No tags provided in config. Prompting user to input tags..."];
       Ask "Enter a list of comma separated tags" "dev";
       Log Info [Lit "Tags: "; Fmt (NList [NStr "legacy"])]],
      Return tt))
  /\ In "" (parse_tags "a, ,c").
Proof. split; [reflexivity | simpl; auto]. Qed.

(** C6. On a config whose [core.tags] is empty or absent, in a job of a
    multirun (its job node has an [id]), the call raises the configuration
    error; nothing is logged or asked before, and the config is as it
    was. *)
Theorem enforce_tags_unattended
        (can_open : path -> bool) (hydra_job : dict) (entered : string)
        (save_to_file : bool) (config core : dict) :
  lookup "core" config = Some (NDict core) ->
  truthy (dict_get "tags" core) = false ->
  contains "id" hydra_job = true ->
  enforce_tags can_open hydra_job entered save_to_file config
  = (config,
     ([], Raise (ValueError "Specify tags before launching a multirun!"))).
Proof.
  intros Hcore Htags Hid.
  rewrite (enforce_tags_unfold _ _ _ _ _ _ Hcore (falsy_readable _ Htags)),
    Htags.
  simpl negb. cbv iota. unfold st_bind.
  now rewrite (ask_for_tags_unattended _ _ _ Hid).
Qed.

(** Empty tags and absent tags, in a multirun. *)
Lemma enforce_tags_unattended_witness :
  (lookup "core" Examples.untagged_config
   = Some (NDict [("seed", NInt 42); ("tags", NList [])])
   /\ enforce_tags Examples.any_file Examples.multirun_job "a,b" true
                   Examples.untagged_config
      = (Examples.untagged_config,
         ([], Raise (ValueError "Specify tags before launching a multirun!"))))
  /\ enforce_tags Examples.any_file Examples.multirun_job "a,b" false
                  [("core", NDict [("seed", NInt 42)])]
     = ([("core", NDict [("seed", NInt 42)])],
        ([], Raise (ValueError "Specify tags before launching a multirun!"))).
Proof.
  split; [split; [reflexivity|]|].
  - apply (enforce_tags_unattended Examples.any_file Examples.multirun_job
             "a,b" true Examples.untagged_config
             [("seed", NInt 42); ("tags", NList [])]); reflexivity.
  - apply (enforce_tags_unattended Examples.any_file Examples.multirun_job
             "a,b" false [("core", NDict [("seed", NInt 42)])]
             [("seed", NInt 42)]); reflexivity.
Defined.

(** C7. With tags in the config, the call asks nothing and leaves the
    config, its tags included, as it was. In every case, the config after
    the call has the same fields in the same order, every top-level field
    other than [core] is as before, and so is every field of [core] other
    than [tags]. *)
Theorem enforce_tags_frame
        (can_open : path -> bool) (hydra_job : dict) (entered : string)
        (save_to_file : bool) (config : dict) :
  let r := enforce_tags can_open hydra_job entered save_to_file config in
  (forall core,
      lookup "core" config = Some (NDict core) ->
      truthy (dict_get "tags" core) = true ->
      final_config r = config /\ no_prompt (trace r) = true)
  /\ keys (final_config r) = keys config
  /\ (forall key, key <> "core" ->
       lookup key (final_config r) = lookup key config)
  /\ (forall key, key <> "tags" ->
       subfield "core" key (final_config r) = subfield "core" key config).
Proof.
  intros r. subst r. split.
  - intros core Hcore Htags.
    destruct (enforce_tags_truthy can_open hydra_job entered save_to_file
                _ _ Hcore Htags) as [out [r [-> [Hquiet _]]]].
    split; [reflexivity | exact Hquiet].
  - destruct (enforce_tags_final_config can_open hydra_job entered
                save_to_file config) as [-> | [core [Hcore ->]]].
    + repeat split; reflexivity.
    + split; [|split].
      * apply keys_assign_present. rewrite lookup_mem. now rewrite Hcore.
      * intros key Hkey. now apply lookup_assign_other.
      * intros key Hkey. unfold subfield.
        rewrite lookup_assign_same, Hcore.
        now apply lookup_assign_other.
Qed.

(** A config with tags: nothing asked, nothing changed. *)
Lemma enforce_tags_frame_witness :
  lookup "core" Examples.tagged_config
  = Some (NDict [("seed", NInt 42); ("tags", NList [NStr "existing"])])
  /\ final_config (enforce_tags Examples.any_file Examples.single_run_job
                                "a,b" true Examples.tagged_config)
     = Examples.tagged_config
  /\ no_prompt (trace (enforce_tags Examples.any_file
                                    Examples.single_run_job
                                    "a,b" true Examples.tagged_config))
     = true.
Proof.
  split; [reflexivity|].
  pose proof (enforce_tags_frame Examples.any_file Examples.single_run_job
                "a,b" true Examples.tagged_config) as H.
  cbv zeta in H. destruct H as [Htagged _].
  exact (Htagged [("seed", NInt 42); ("tags", NList [NStr "existing"])]
                 eq_refl eq_refl).
Defined.

End TagFacts.

(** ** Further properties of the instantiators *)

Module InstantiatorsMore.
Import Py Eff Instantiators PyFacts EffFacts InstantiatorsFacts Observations.

Lemma first_unreadable_app (l1 l2 : dict) :
  first_unreadable (l1 ++ l2)
  = match first_unreadable l1 with
    | Some e => Some e
    | None => first_unreadable l2
    end.
Proof.
  induction l1 as [|[key stored] rest IH]; [reflexivity|].
  now destruct stored.
Qed.

Lemma all_readable_app (l1 l2 : dict) :
  all_readable (l1 ++ l2) = true ->
  all_readable l1 = true /\ all_readable l2 = true.
Proof.
  rewrite <- !first_unreadable_readable, first_unreadable_app.
  destruct (first_unreadable l1); [discriminate | now split].
Qed.

Section WithCollaborator.

Context {Obj : Type} (instantiate : dict -> outcome Obj).

Lemma forallb_filter_has_target (items : dict) :
  forallb has_target (filter has_target items) = true.
Proof.
  apply forallb_forall. intros entry Hin. now apply filter_In in Hin.
Qed.

Lemma construct_all_app (l1 l2 : dict) :
  construct_all instantiate (l1 ++ l2)
  = one_after_the_other (construct_all instantiate l1)
                        (construct_all instantiate l2).
Proof.
  induction l1 as [|[name entry] rest IH]; cbn [app construct_all].
  - now destruct (construct_all instantiate l2).
  - destruct entry; try exact IH.
    destruct (result (getattr "_target_" (NDict fields))); [|reflexivity].
    destruct (instantiate fields) as [obj|e]; [|reflexivity].
    rewrite IH.
    destruct (construct_all instantiate rest) as [objs1|e1];
      [|reflexivity].
    now destruct (construct_all instantiate l2).
Qed.

(** One turn of the loops on an entry with a target, by the line that it
    logs. *)
Lemma callbacks_loop_announce (name : string) (fields rest : dict)
      (acc : list Obj) :
  contains "_target_" fields = true ->
  callbacks_loop instantiate ((name, NDict fields) :: rest) acc
  = if target_readable fields then
      match instantiate fields with
      | Return obj =>
          (announce_callback (name, NDict fields)
           :: events (callbacks_loop instantiate rest (acc ++ [obj])),
           result (callbacks_loop instantiate rest (acc ++ [obj])))
      | Raise e => ([announce_callback (name, NDict fields)], Raise e)
      end
    else ([], Raise (InterpolationKeyError "_target_")).
Proof.
  intros Ht. rewrite (callbacks_loop_step _ _ _ _ _ Ht), (target_read _ Ht).
  now destruct (target_readable fields).
Qed.

Lemma loggers_loop_announce (name : string) (fields rest : dict)
      (acc : list Obj) :
  contains "_target_" fields = true ->
  loggers_loop instantiate ((name, NDict fields) :: rest) acc
  = if target_readable fields then
      match instantiate fields with
      | Return obj =>
          (announce_logger (name, NDict fields)
           :: events (loggers_loop instantiate rest (acc ++ [obj])),
           result (loggers_loop instantiate rest (acc ++ [obj])))
      | Raise e => ([announce_logger (name, NDict fields)], Raise e)
      end
    else ([], Raise (InterpolationKeyError "_target_")).
Proof.
  intros Ht. rewrite (loggers_loop_step _ _ _ _ _ Ht), (target_read _ Ht).
  now destruct (target_readable fields).
Qed.

(** The constructions of a list that starts with an entry with a
    target. *)
Lemma construct_all_step (name : string) (fields rest : dict) :
  contains "_target_" fields = true ->
  construct_all instantiate ((name, NDict fields) :: rest)
  = if target_readable fields then
      match instantiate fields with
      | Return obj =>
          match construct_all instantiate rest with
          | Return objs => Return (obj :: objs)
          | Raise e => Raise e
          end
      | Raise e => Raise e
      end
    else Raise (InterpolationKeyError "_target_").
Proof.
  intros Ht. cbn [construct_all]. rewrite (target_read _ Ht).
  now destruct (target_readable fields).
Qed.

(** The trace of the loops while the constructions succeed. *)
Lemma callbacks_loop_events_ok (entries : dict) (acc objs : list Obj) :
  construct_all instantiate (filter has_target entries) = Return objs ->
  events (callbacks_loop instantiate entries acc)
  = map announce_callback (filter has_target entries).
Proof.
  revert acc objs. induction entries as [|entry rest IH]; intros acc objs;
    [reflexivity|].
  cbn [filter]. destruct (has_target entry) eqn:Hentry.
  - destruct (has_target_true _ Hentry) as [name [fields [-> Ht]]].
    rewrite (callbacks_loop_announce _ _ _ _ Ht),
      (construct_all_step _ _ _ Ht).
    destruct (target_readable fields); [|discriminate].
    destruct (instantiate fields) as [obj|e]; [|discriminate].
    destruct (construct_all instantiate (filter has_target rest))
      as [objs'|e] eqn:Hrest; [|discriminate].
    intros _. cbn [events fst map]. f_equal. now apply (IH _ objs').
  - rewrite (callbacks_loop_pass _ _ _ _ Hentry). apply IH.
Qed.

Lemma loggers_loop_events_ok (entries : dict) (acc objs : list Obj) :
  construct_all instantiate (filter has_target entries) = Return objs ->
  events (loggers_loop instantiate entries acc)
  = map announce_logger (filter has_target entries).
Proof.
  revert acc objs. induction entries as [|entry rest IH]; intros acc objs;
    [reflexivity|].
  cbn [filter]. destruct (has_target entry) eqn:Hentry.
  - destruct (has_target_true _ Hentry) as [name [fields [-> Ht]]].
    rewrite (loggers_loop_announce _ _ _ _ Ht),
      (construct_all_step _ _ _ Ht).
    destruct (target_readable fields); [|discriminate].
    destruct (instantiate fields) as [obj|e]; [|discriminate].
    destruct (construct_all instantiate (filter has_target rest))
      as [objs'|e] eqn:Hrest; [|discriminate].
    intros _. cbn [events fst map]. f_equal. now apply (IH _ objs').
  - rewrite (loggers_loop_pass _ _ _ _ Hentry). apply IH.
Qed.

(** The trace and the ending of the loops when a construction raises
    after the ones before it succeeded. *)
Lemma callbacks_loop_raises
      (before after : dict) (name : string) (fields : dict) (e : exn)
      (acc objs : list Obj) :
  target_readable fields = true ->
  instantiate fields = Raise e ->
  construct_all instantiate (filter has_target before) = Return objs ->
  callbacks_loop instantiate (before ++ (name, NDict fields) :: after) acc
  = (map announce_callback (filter has_target before)
     ++ [announce_callback (name, NDict fields)],
     Raise e).
Proof.
  intros Hread Hraise. revert acc objs.
  induction before as [|entry rest IH]; intros acc objs.
  - intros _. cbn [app filter map].
    rewrite (callbacks_loop_announce _ _ _ _
               (target_readable_contains _ Hread)).
    now rewrite Hread, Hraise.
  - cbn [app filter]. destruct (has_target entry) eqn:Hentry.
    + destruct (has_target_true _ Hentry) as [name' [fields' [-> Ht]]].
      rewrite (callbacks_loop_announce _ _ _ _ Ht),
        (construct_all_step _ _ _ Ht).
      destruct (target_readable fields'); [|discriminate].
      destruct (instantiate fields') as [obj|e']; [|discriminate].
      destruct (construct_all instantiate (filter has_target rest))
        as [objs'|e'] eqn:Hrest; [|discriminate].
      intros _. now rewrite (IH (acc ++ [obj]) objs' eq_refl).
    + rewrite (callbacks_loop_pass _ _ _ _ Hentry). apply IH.
Qed.

Lemma loggers_loop_raises
      (before after : dict) (name : string) (fields : dict) (e : exn)
      (acc objs : list Obj) :
  target_readable fields = true ->
  instantiate fields = Raise e ->
  construct_all instantiate (filter has_target before) = Return objs ->
  loggers_loop instantiate (before ++ (name, NDict fields) :: after) acc
  = (map announce_logger (filter has_target before)
     ++ [announce_logger (name, NDict fields)],
     Raise e).
Proof.
  intros Hread Hraise. revert acc objs.
  induction before as [|entry rest IH]; intros acc objs.
  - intros _. cbn [app filter map].
    rewrite (loggers_loop_announce _ _ _ _
               (target_readable_contains _ Hread)).
    now rewrite Hread, Hraise.
  - cbn [app filter]. destruct (has_target entry) eqn:Hentry.
    + destruct (has_target_true _ Hentry) as [name' [fields' [-> Ht]]].
      rewrite (loggers_loop_announce _ _ _ _ Ht),
        (construct_all_step _ _ _ Ht).
      destruct (target_readable fields'); [|discriminate].
      destruct (instantiate fields') as [obj|e']; [|discriminate].
      destruct (construct_all instantiate (filter has_target rest))
        as [objs'|e'] eqn:Hrest; [|discriminate].
      intros _. now rewrite (IH (acc ++ [obj]) objs' eq_refl).
    + rewrite (loggers_loop_pass _ _ _ _ Hentry). apply IH.
Qed.

(** A call on a mapping that is not empty and whose values can all be
    read is the loop over its entries. *)
Lemma instantiate_callbacks_readable (d : dict) :
  d <> [] -> all_readable d = true ->
  instantiate_callbacks instantiate (Node (NDict d))
  = callbacks_loop instantiate d [].
Proof.
  intros Hne Hread. destruct d as [|entry rest]; [contradiction|].
  rewrite instantiate_callbacks_run.
  apply first_unreadable_readable in Hread. now rewrite Hread.
Qed.

Lemma instantiate_loggers_readable (d : dict) :
  d <> [] -> all_readable d = true ->
  instantiate_loggers instantiate (Node (NDict d))
  = loggers_loop instantiate d [].
Proof.
  intros Hne Hread. destruct d as [|entry rest]; [contradiction|].
  rewrite instantiate_loggers_run.
  apply first_unreadable_readable in Hread. now rewrite Hread.
Qed.

(** What [instantiate_all] returns. *)
Lemma instantiate_all_returns (items : dict) (objs : list Obj) :
  instantiate_all instantiate items = Return objs
  <-> all_readable items = true
      /\ Forall2 (constructed instantiate) (filter has_target items) objs.
Proof.
  unfold instantiate_all. rewrite <- first_unreadable_readable.
  destruct (first_unreadable items) as [e|].
  - split; [discriminate | intros [H _]; discriminate].
  - split.
    + intros H. split; [reflexivity|].
      apply construct_all_returns;
        [apply forallb_filter_has_target | exact H].
    + intros [_ H]. now apply construct_all_constructed.
Qed.


(** X2. On a mapping whose values can all be read, the instantiators stop
    at the first construction that raises: the call raises that exception,
    the trace holds one line for every entry constructed before and one
    for the entry that failed, and the entries after it are neither
    announced nor constructed. *)
Theorem instantiators_fail_fast
        (before after : dict) (name : string) (fields : dict) (e : exn)
        (objs : list Obj) :
  all_readable (before ++ (name, NDict fields) :: after) = true ->
  target_readable fields = true ->
  instantiate fields = Raise e ->
  construct_all instantiate (filter has_target before) = Return objs ->
  instantiate_callbacks instantiate
    (Node (NDict (before ++ (name, NDict fields) :: after)))
  = (map announce_callback (filter has_target before)
     ++ [announce_callback (name, NDict fields)],
     Raise e)
  /\ instantiate_loggers instantiate
       (Node (NDict (before ++ (name, NDict fields) :: after)))
     = (map announce_logger (filter has_target before)
        ++ [announce_logger (name, NDict fields)],
        Raise e).
Proof.
  intros Hall Hread Hraise Hok.
  assert (Hne : before ++ (name, NDict fields) :: after <> [])
    by (now destruct before).
  rewrite (instantiate_callbacks_readable _ Hne Hall),
    (instantiate_loggers_readable _ Hne Hall).
  split;
    [eapply callbacks_loop_raises | eapply loggers_loop_raises]; eassumption.
Qed.

(** X3. When an instantiator returns from a mapping that is not empty, its
    trace is one info line per constructed object, in order, each showing
    the target of the entry; nothing else is logged. *)
Theorem instantiators_one_line_per_object (items : dict) (objs : list Obj) :
  items <> [] ->
  result (instantiate_callbacks instantiate (Node (NDict items)))
  = Return objs ->
  events (instantiate_callbacks instantiate (Node (NDict items)))
  = map announce_callback (filter has_target items)
  /\ events (instantiate_loggers instantiate (Node (NDict items)))
     = map announce_logger (filter has_target items)
  /\ List.length
       (events (instantiate_callbacks instantiate (Node (NDict items))))
     = List.length objs.
Proof.
  intros Hne Hret. rewrite instantiate_callbacks_result in Hret.
  pose proof (proj1 (instantiate_all_returns _ _) Hret) as [Hall Hobjs].
  rewrite (instantiate_callbacks_readable _ Hne Hall),
    (instantiate_loggers_readable _ Hne Hall).
  pose proof (construct_all_constructed _ _ _ Hobjs) as Hok.
  rewrite (callbacks_loop_events_ok _ _ _ Hok).
  rewrite (loggers_loop_events_ok _ _ _ Hok).
  repeat split. rewrite length_map.
  now apply Forall2_length with (R := constructed instantiate).
Qed.

(** X4. [items] reads every value before the loop starts: on a mapping
    with a value that is missing or an interpolation that fails, either
    instantiator raises for the first such value and logs nothing, also
    when entries before it have a target. *)
Theorem instantiators_unreadable_value (items : dict) (e : exn) :
  first_unreadable items = Some e ->
  instantiate_callbacks instantiate (Node (NDict items)) = ([], Raise e)
  /\ instantiate_loggers instantiate (Node (NDict items)) = ([], Raise e).
Proof.
  intros Hfirst. destruct items as [|entry rest]; [discriminate|].
  rewrite instantiate_callbacks_run, instantiate_loggers_run, Hfirst.
  split; reflexivity.
Qed.

(** X5. On a mapping made of two parts whose values can all be read,
    instantiating ends as instantiating the first part and then the
    second: the two lists one after the other, or the first exception
    met. *)
Theorem instantiators_concatenate (items1 items2 : dict) :
  all_readable (items1 ++ items2) = true ->
  result (instantiate_callbacks instantiate (Node (NDict (items1 ++ items2))))
  = one_after_the_other
      (result (instantiate_callbacks instantiate (Node (NDict items1))))
      (result (instantiate_callbacks instantiate (Node (NDict items2))))
  /\ result (instantiate_loggers instantiate
               (Node (NDict (items1 ++ items2))))
     = one_after_the_other
         (result (instantiate_loggers instantiate (Node (NDict items1))))
         (result (instantiate_loggers instantiate (Node (NDict items2)))).
Proof.
  intros Hall. destruct (all_readable_app _ _ Hall) as [H1 H2].
  rewrite !instantiate_callbacks_result, !instantiate_loggers_result.
  unfold instantiate_all.
  apply first_unreadable_readable in Hall, H1, H2.
  rewrite Hall, H1, H2.
  rewrite filter_app, construct_all_app. split; reflexivity.
Qed.

End WithCollaborator.

(** A mapping with a value that cannot be read: the call on the two parts
    raises before anything is constructed, where the call on the first
    part alone raises the exception of the collaborator. *)
Example instantiators_concatenate_unreadable :
  result (instantiate_callbacks Examples.name_of_target
            (Node (NDict ([("broken", NDict [("_target_", NInt 7)])]
                          ++ [("note", NMissing)]))))
  = Raise (MissingMandatoryValue "note")
  /\ result (instantiate_callbacks Examples.name_of_target
               (Node (NDict [("broken", NDict [("_target_", NInt 7)])])))
     = Raise (InstantiationException "cannot locate the target").
Proof. split; reflexivity. Qed.

(** One callback constructed, the next one broken, a third never
    reached. *)
Lemma instantiators_fail_fast_witness :
  target_readable [("_target_", NInt 7)] = true
  /\ instantiate_callbacks Examples.name_of_target
       (Node (NDict ([("early_stopping", Examples.early_stopping)]
                     ++ ("broken", NDict [("_target_", NInt 7)])
                     :: [("model_checkpoint", Examples.model_checkpoint)])))
     = ([Log Info [Lit "Instantiating callback <";
                   Fmt (NStr "lightning.pytorch.callbacks.EarlyStopping");
                   Lit ">"];
         Log Info [Lit "Instantiating callback <"; Fmt (NInt 7); Lit ">"]],
        Raise (InstantiationException "cannot locate the target")).
Proof.
  split; [reflexivity|].
  apply (instantiators_fail_fast Examples.name_of_target
           [("early_stopping", Examples.early_stopping)]
           [("model_checkpoint", Examples.model_checkpoint)]
           "broken" [("_target_", NInt 7)]
           (InstantiationException "cannot locate the target")
           ["lightning.pytorch.callbacks.EarlyStopping"]);
    reflexivity.
Defined.

(** Two callbacks constructed, two lines. *)
Lemma instantiators_one_line_per_object_witness :
  Examples.two_callbacks <> []
  /\ events (instantiate_callbacks Examples.name_of_target
               (Node (NDict Examples.two_callbacks)))
     = [Log Info [Lit "Instantiating callback <";
                  Fmt (NStr "lightning.pytorch.callbacks.EarlyStopping");
                  Lit ">"];
        Log Info [Lit "Instantiating callback <";
                  Fmt (NStr "lightning.pytorch.callbacks.ModelCheckpoint");
                  Lit ">"]].
Proof.
  split; [discriminate|].
  apply (instantiators_one_line_per_object Examples.name_of_target
           Examples.two_callbacks
           ["lightning.pytorch.callbacks.EarlyStopping";
            "lightning.pytorch.callbacks.ModelCheckpoint"]);
    [discriminate | reflexivity].
Defined.

(** A callback, then a logger whose settings hold an interpolation that
    fails: the callback is not announced. *)
Lemma instantiators_unreadable_value_witness :
  first_unreadable [("early_stopping", Examples.early_stopping);
                    ("csv", NUnresolved)]
  = Some (InterpolationKeyError "csv")
  /\ instantiate_loggers Examples.name_of_target
       (Node (NDict [("early_stopping", Examples.early_stopping);
                     ("csv", NUnresolved)]))
     = ([], Raise (InterpolationKeyError "csv")).
Proof.
  split; [reflexivity|].
  exact (proj2 (instantiators_unreadable_value Examples.name_of_target
                  [("early_stopping", Examples.early_stopping);
                   ("csv", NUnresolved)]
                  (InterpolationKeyError "csv") eq_refl)).
Defined.

(** Two callbacks, one after the other. *)
Lemma instantiators_concatenate_witness :
  all_readable ([("early_stopping", Examples.early_stopping)]
                ++ [("model_checkpoint", Examples.model_checkpoint)]) = true
  /\ result (instantiate_callbacks Examples.name_of_target
               (Node (NDict ([("early_stopping", Examples.early_stopping)]
                             ++ [("model_checkpoint",
                                  Examples.model_checkpoint)]))))
     = Return ["lightning.pytorch.callbacks.EarlyStopping";
               "lightning.pytorch.callbacks.ModelCheckpoint"].
Proof.
  split; [reflexivity|].
  exact (eq_trans
           (proj1 (instantiators_concatenate Examples.name_of_target
                     [("early_stopping", Examples.early_stopping)]
                     [("model_checkpoint", Examples.model_checkpoint)]
                     eq_refl))
           eq_refl).
Defined.

End InstantiatorsMore.

(** ** Further properties of the tree printer *)

Module TreeMore.
Import Py Eff RichUtils PyFacts EffFacts TreeFacts Observations.

Lemma printed_trees_warnings (fields : list string) (out : list event) :
  printed_trees (map missing_field_warning fields ++ out) = printed_trees out.
Proof.
  unfold printed_trees. rewrite flat_map_app.
  now induction fields as [|field rest IH].
Qed.




(** A run on a root that renders. *)
Lemma print_config_tree_renders
      (can_open : path -> bool) (config : dict) (print_order : list string)
      (resolve save_to_file : bool) :
  renders resolve config = true ->
  let branches :=
    branches_of config resolve (queue_of config print_order) in
  let saving :=
    if save_to_file then save_tree can_open config (Tree branches)
    else ret tt in
  print_config_tree can_open config print_order resolve save_to_file
  = (map missing_field_warning
         (filter (fun field => negb (contains field config)) print_order)
     ++ Print (Tree branches) :: events saving,
     result saving).
Proof.
  intros Hrenders.
  pose proof (print_config_tree_run can_open config print_order resolve
                save_to_file) as Hrun.
  cbv zeta in Hrun. now rewrite (renders_queue _ _ _ Hrenders) in Hrun.
Qed.

(** The saving prints no tree on the console. *)
Lemma save_tree_prints_nothing (can_open : path -> bool) (config : dict)
      (tree : printable) :
  printed_trees (events (save_tree can_open config tree)) = [].
Proof.
  pose proof (save_tree_cases can_open config tree) as Hsave.
  destruct (output_file can_open config "config_tree.log");
    [now rewrite Hsave | destruct Hsave as [e ->]; reflexivity].
Qed.

(** Every branch of the tree of a root that renders holds the value under
    its label. *)
Lemma branches_of_content (config : dict) (resolve : bool)
      (print_order : list string) :
  all_readable config = true ->
  Forall (fun branch =>
            exists value,
              lookup (fst branch) config = Some value
              /\ snd branch = branch_content resolve value)
         (branches_of config resolve (queue_of config print_order)).
Proof.
  intros Hread.
  unfold branches_of. apply Forall_map. apply Forall_forall.
  intros field Hin. simpl.
  apply queue_keys in Hin. apply mem_In in Hin. rewrite lookup_mem in Hin.
  unfold dict_get.
  destruct (lookup field config) as [value|] eqn:Hvalue; [|discriminate].
  exists value. split; [reflexivity|].
  apply lookup_In in Hvalue. unfold all_readable in Hread.
  rewrite forallb_forall in Hread. specialize (Hread _ Hvalue).
  simpl in Hread. now destruct value.
Qed.


(** X7. When neither the root nor the preference list repeats a name and
    every top-level value of the root can be shown, every top-level field
    of the root gets exactly one branch: the labels of the printed tree are
    a permutation of the fields of the root. *)
Theorem print_config_tree_each_field_once
        (can_open : path -> bool) (config : dict)
        (print_order : list string) (resolve save_to_file : bool) :
  NoDup (keys config) ->
  NoDup print_order ->
  renders resolve config = true ->
  exists branches,
    printed_trees
      (events (print_config_tree can_open config print_order resolve
                                 save_to_file))
    = [branches]
    /\ Permutation (map fst branches) (keys config).
Proof.
  intros Hkeys Horder Hrenders.
  rewrite (print_config_tree_renders _ _ _ _ _ Hrenders).
  cbn [events fst]. rewrite printed_trees_warnings.
  eexists. split.
  - unfold printed_trees. cbn [flat_map app]. f_equal.
    destruct save_to_file; [|reflexivity].
    apply save_tree_prints_nothing.
  - rewrite labels_branches_of.
    apply NoDup_Permutation; [| exact Hkeys | apply queue_keys].
    unfold queue_of. rewrite (other_fields_loop_spec _ _ Hkeys).
    apply NoDup_app; [now apply NoDup_filter | now apply NoDup_filter |].
    intros field Hin Hin'. apply filter_In in Hin' as [_ Hnot].
    apply mem_In in Hin. rewrite Hin in Hnot. discriminate.
Qed.

(** X8. When every top-level value of the root can be shown, every branch
    of the printed tree shows the value that the root holds under the label
    of the branch: as YAML, with the resolve flag of the call, when the
    value is a mapping, and as its plain string form otherwise; with or
    without saving. *)
Theorem print_config_tree_branch_content
        (can_open : path -> bool) (config : dict)
        (print_order : list string) (resolve save_to_file : bool) :
  renders resolve config = true ->
  exists branches,
    printed_trees
      (events (print_config_tree can_open config print_order resolve
                                 save_to_file))
    = [branches]
    /\ Forall (fun branch =>
                 exists value,
                   lookup (fst branch) config = Some value
                   /\ snd branch = branch_content resolve value)
              branches.
Proof.
  intros Hrenders.
  rewrite (print_config_tree_renders _ _ _ _ _ Hrenders).
  cbn [events fst]. rewrite printed_trees_warnings.
  eexists.
  split; [|apply branches_of_content; now apply renders_readable with resolve].
  unfold printed_trees. cbn [flat_map app]. f_equal.
  destruct save_to_file; [|reflexivity].
  apply save_tree_prints_nothing.
Qed.


(** A root with a failing interpolation inside a mapping: it is printed as
    it stands, and with [resolve] the rendering raises before any tree is
    printed. *)
Example print_config_tree_resolve_raises :
  result (print_config_tree Examples.any_file
            [("model", NDict [("lr", NUnresolved)])] [] false false)
  = Return tt
  /\ print_config_tree Examples.any_file
       [("model", NDict [("lr", NUnresolved)])] [] true false
     = ([], Raise (InterpolationKeyError "to_yaml")).
Proof. split; reflexivity. Qed.


(** The root of the examples, its fields in the preference order and one
    more. *)
Lemma print_config_tree_each_field_once_witness :
  NoDup (keys Examples.tree_config)
  /\ NoDup ["model"; "trainer"; "callbacks"]
  /\ renders false Examples.tree_config = true
  /\ exists branches,
      printed_trees
        (events (print_config_tree Examples.any_file Examples.tree_config
                                   ["model"; "trainer"; "callbacks"]
                                   false true))
      = [branches]
      /\ Permutation (map fst branches) ["callbacks"; "model"; "extra"].
Proof.
  assert (Hkeys : NoDup (keys Examples.tree_config)).
  { repeat constructor; simpl; intuition discriminate. }
  assert (Horder : NoDup ["model"; "trainer"; "callbacks"]).
  { repeat constructor; simpl; intuition discriminate. }
  split; [exact Hkeys | split; [exact Horder | split; [reflexivity|]]].
  exact (print_config_tree_each_field_once
           Examples.any_file Examples.tree_config
           ["model"; "trainer"; "callbacks"] false true Hkeys Horder
           eq_refl).
Defined.

(** The branches of the root of the examples hold its values. *)
Lemma print_config_tree_branch_content_witness :
  renders false Examples.tree_config = true
  /\ exists branches,
      printed_trees
        (events (print_config_tree Examples.any_file Examples.tree_config
                                   ["model"; "callbacks"] false true))
      = [branches]
      /\ Forall (fun branch =>
                   exists value,
                     lookup (fst branch) Examples.tree_config = Some value
                     /\ snd branch = branch_content false value)
                branches.
Proof.
  split; [reflexivity|].
  exact (print_config_tree_branch_content
           Examples.any_file Examples.tree_config
           ["model"; "callbacks"] false true eq_refl).
Defined.


End TreeMore.

(** ** Further properties of the strings *)

Module StringMore.
Import Py PyFacts Observations.

Lemma lstrip_head (s : string) :
  match lstrip s with
  | String c _ => is_space c = false
  | EmptyString => True
  end.
Proof.
  induction s as [|c rest IH]; simpl; [exact I|].
  destruct (is_space c) eqn:E; [exact IH | exact E].
Qed.

Lemma rstrip_rstrip (s : string) : rstrip (rstrip s) = rstrip s.
Proof.
  induction s as [|c rest IH]; simpl; [reflexivity|].
  destruct (rstrip rest) as [|c' kept] eqn:E.
  - destruct (is_space c) eqn:Hc; simpl; [reflexivity | now rewrite Hc].
  - change (rstrip (String c (String c' kept)))
      with (match rstrip (String c' kept) with
            | EmptyString =>
                if is_space c then EmptyString else String c EmptyString
            | String _ _ as kept' => String c kept'
            end).
    now rewrite IH.
Qed.

Lemma lstrip_rstrip_lstrip (s : string) :
  lstrip (rstrip (lstrip s)) = rstrip (lstrip s).
Proof.
  pose proof (lstrip_head s) as Hhead.
  destruct (lstrip s) as [|c rest]; [reflexivity|].
  simpl. destruct (rstrip rest); [rewrite Hhead|]; simpl; now rewrite Hhead.
Qed.

(** Trimming twice is trimming once. *)
Lemma strip_strip (s : string) : strip (strip s) = strip s.
Proof.
  unfold strip. now rewrite lstrip_rstrip_lstrip, rstrip_rstrip.
Qed.

Lemma mentions_lstrip (c : ascii) (s : string) :
  mentions c s = false -> mentions c (lstrip s) = false.
Proof.
  induction s as [|c' rest IH]; simpl; [reflexivity|].
  intros H. apply orb_false_iff in H as [Hc Hrest].
  destruct (is_space c'); [now apply IH | simpl; now rewrite Hc, Hrest].
Qed.

Lemma mentions_rstrip (c : ascii) (s : string) :
  mentions c s = false -> mentions c (rstrip s) = false.
Proof.
  induction s as [|c' rest IH]; simpl; [reflexivity|].
  intros H. apply orb_false_iff in H as [Hc Hrest].
  specialize (IH Hrest).
  destruct (rstrip rest) as [|c'' kept].
  - destruct (is_space c'); simpl; [reflexivity | now rewrite Hc].
  - simpl in *. now rewrite Hc, IH.
Qed.

(** No piece of a split holds the separator. *)
Lemma split_pieces_clean (sep : ascii) (s piece : string) :
  In piece (split sep s) -> mentions sep piece = false.
Proof.
  revert piece. induction s as [|c rest IH]; intros piece; simpl.
  - intros [<- | []]. reflexivity.
  - destruct (Ascii.eqb c sep) eqn:E.
    + intros [<- | Hin]; [reflexivity | now apply IH].
    + destruct (split sep rest) as [|first others] eqn:Hsplit.
      * intros [<- | []]. simpl. now rewrite E.
      * intros [<- | Hin].
        -- simpl. rewrite E. apply IH. now left.
        -- apply IH. now right.
Qed.

(** The pieces that are not empty, when there are none. *)
Lemma split_all_empty (s : string) :
  filter (fun t => negb (String.eqb t "")) (split "," s) = []
  <-> only_commas s = true.
Proof.
  induction s as [|c rest IH]; simpl.
  - split; reflexivity.
  - destruct (Ascii.eqb c ",") eqn:E; simpl.
    + exact IH.
    + destruct (split "," rest); simpl; split; discriminate.
Qed.

End StringMore.

(** ** Further properties of the tag enforcement *)

Module TagMore.
Import Py Eff RichUtils PyFacts EffFacts TagFacts Observations StringMore.

Lemma no_prompt_count (out : list event) :
  no_prompt out = true -> count_prompts out = 0.
Proof.
  unfold no_prompt, count_prompts.
  induction out as [|ev rest IH]; simpl; [reflexivity|].
  intros H. apply andb_true_iff in H as [Hev Hrest].
  apply negb_true_iff in Hev. rewrite Hev. now apply IH.
Qed.


Section WithEnvironment.

Context (can_open : path -> bool) (hydra_job : dict) (entered : string).

(** X10. On a config with a [core] mapping, the user is asked once when the
    tags are unset and the job is a single run, and never otherwise. *)
Theorem enforce_tags_prompt_count
        (save_to_file : bool) (config core : dict) :
  lookup "core" config = Some (NDict core) ->
  count_prompts
    (trace (enforce_tags can_open hydra_job entered save_to_file config))
  = if negb (truthy (dict_get "tags" core))
       && negb (contains "id" hydra_job)
    then 1 else 0.
Proof.
  intros Hcore.
  destruct (truthy (dict_get "tags" core)) eqn:Htags.
  - destruct (enforce_tags_truthy can_open hydra_job entered save_to_file
                _ _ Hcore Htags) as [out [r [-> [Hquiet _]]]].
    now apply no_prompt_count.
  - destruct (contains "id" hydra_job) eqn:Hid.
    + rewrite (enforce_tags_unfold _ _ _ _ _ _ Hcore
                 (falsy_readable _ Htags)), Htags.
      simpl negb. cbv iota. unfold st_bind.
      now rewrite (ask_for_tags_unattended _ _ _ Hid).
    + destruct (enforce_tags_interactive can_open hydra_job entered
                  save_to_file _ _ Hcore Htags Hid)
        as [out [r [-> [Hquiet _]]]].
      unfold trace, count_prompts. simpl. f_equal.
      now apply no_prompt_count.
Qed.

(** X11. In a single run on a config with unset tags and no top-level
    [tags] field, the call writes the parsed tags to [core.tags] and then
    raises an attribute error at its log line; nothing is logged after the
    prompt and no file is written, whatever [save_to_file] is. *)
Theorem enforce_tags_log_line
        (save_to_file : bool) (config core : dict) :
  lookup "core" config = Some (NDict core) ->
  truthy (dict_get "tags" core) = false ->
  contains "id" hydra_job = false ->
  lookup "tags" config = None ->
  enforce_tags can_open hydra_job entered save_to_file config
  = (assign "core" (NDict (assign "tags" (tags_of_line entered) core)) config,
     ([Log Warning
           [Lit "No tags provided in config. Prompting user to input tags..."];
       Ask "Enter a list of comma separated tags" "dev"],
      Raise (AttributeError "tags"))).
Proof.
  intros Hcore Htags Hid Hnone.
  rewrite (enforce_tags_unfold _ _ _ _ _ _ Hcore (falsy_readable _ Htags)),
    Htags.
  simpl negb. cbv iota. unfold st_bind.
  rewrite (ask_for_tags_interactive _ _ _ _ Hcore Hid).
  cbn [getattr]. rewrite Hnone. reflexivity.
Qed.

(** X12. In a single run on a config with unset tags and a top-level
    [tags] field that can be read, the call returns: it warns, asks, writes
    the parsed tags to [core.tags] and logs the value of the top-level
    field. When saving, with an output file at hand, it then writes the
    parsed tags to [tags.log]. *)
Theorem enforce_tags_interactive_run
        (save_to_file : bool) (config core : dict) (shown : node) :
  lookup "core" config = Some (NDict core) ->
  truthy (dict_get "tags" core) = false ->
  contains "id" hydra_job = false ->
  lookup "tags" config = Some shown ->
  readable shown = true ->
  (save_to_file = false ->
   enforce_tags can_open hydra_job entered save_to_file config
   = (assign "core" (NDict (assign "tags" (tags_of_line entered) core))
             config,
      ([Log Warning
            [Lit "No tags provided in config. Prompting user to input tags..."];
        Ask "Enter a list of comma separated tags" "dev";
        Log Info [Lit "Tags: "; Fmt shown]],
       Return tt)))
  /\ (save_to_file = true ->
      forall file,
        output_file can_open config "tags.log" = Some file ->
        enforce_tags can_open hydra_job entered save_to_file config
        = (assign "core" (NDict (assign "tags" (tags_of_line entered) core))
                  config,
           ([Log Warning
                 [Lit "No tags provided in config. Prompting user to input tags..."];
             Ask "Enter a list of comma separated tags" "dev";
             Log Info [Lit "Tags: "; Fmt shown];
             PrintToFile file (Value (tags_of_line entered))],
            Return tt))).
Proof.
  intros Hcore Htags Hid Hshown Hread.
  rewrite (enforce_tags_unfold _ _ _ _ _ _ Hcore (falsy_readable _ Htags)),
    Htags.
  simpl negb. cbv iota. unfold st_bind.
  rewrite (ask_for_tags_interactive _ _ _ _ Hcore Hid),
    (getattr_value _ _ _ Hshown Hread).
  cbn [result snd ret].
  split.
  - intros ->. reflexivity.
  - intros -> file Hfile.
    pose proof (save_tags_cases can_open _ _
                  (core_tags_assigned config core (tags_of_line entered))
                  eq_refl)
      as Hsave.
    rewrite output_file_assign_core, Hfile in Hsave.
    now rewrite Hsave.
Qed.


(** X14. Once a single run has left at least one tag in [core.tags], a
    later call on the same config finds it tagged: in any job, single or
    multirun, it asks nothing, raises nothing and changes nothing. *)
Theorem enforce_tags_again
        (save_to_file : bool) (config core : dict)
        (can_open' : path -> bool) (hydra_job' : dict) (entered' : string) :
  lookup "core" config = Some (NDict core) ->
  truthy (dict_get "tags" core) = false ->
  contains "id" hydra_job = false ->
  parse_tags (answer entered "dev") <> [] ->
  let config' :=
    final_config
      (enforce_tags can_open hydra_job entered save_to_file config) in
  enforce_tags can_open' hydra_job' entered' false config'
  = (config', ([], Return tt)).
Proof.
  intros Hcore Htags Hid Hsome config'. subst config'.
  destruct (enforce_tags_interactive can_open hydra_job entered save_to_file
              _ _ Hcore Htags Hid) as [out [r [-> _]]].
  unfold final_config. cbn [fst].
  apply (enforce_tags_tagged can_open' hydra_job' entered' false _
           (assign "tags" (tags_of_line entered) core)).
  - apply lookup_assign_same.
  - unfold dict_get. rewrite lookup_assign_same. unfold tags_of_line.
    destruct (parse_tags (answer entered "dev")); [contradiction|reflexivity].
  - unfold dict_get. now rewrite lookup_assign_same.
Qed.

(** X15. On a config without a [core] section, or with [core] set to
    [None], the call raises an attribute error at once: [None] has no
    [get]. Nothing is logged, asked or changed. *)
Theorem enforce_tags_without_core (save_to_file : bool) (config : dict) :
  lookup "core" config = None \/ lookup "core" config = Some NNone ->
  enforce_tags can_open hydra_job entered save_to_file config
  = (config, ([], Raise (AttributeError "get"))).
Proof.
  intros H. unfold enforce_tags.
  unfold mbind, St_Monad. unfold st_bind at 1. unfold read, ret.
  unfold st_bind at 1. unfold lift_w at 1. unfold get_method at 1.
  unfold dict_get. destruct H as [-> | ->]; reflexivity.
Qed.

(** X16. The write of the interactive path keeps the fields of [core] in
    their order: [tags] stays where it was, also when its value was still
    missing, or comes last when [core] had no such key. *)
Theorem enforce_tags_core_order
        (save_to_file : bool) (config core : dict) :
  lookup "core" config = Some (NDict core) ->
  truthy (dict_get "tags" core) = false ->
  contains "id" hydra_job = false ->
  core_keys (final_config
               (enforce_tags can_open hydra_job entered save_to_file config))
  = if mem "tags" (keys core) then keys core else keys core ++ ["tags"].
Proof.
  intros Hcore Htags Hid.
  destruct (enforce_tags_interactive can_open hydra_job entered save_to_file
              _ _ Hcore Htags Hid) as [out [r [-> _]]].
  unfold final_config, core_keys. cbn [fst].
  rewrite lookup_assign_same.
  destruct (mem "tags" (keys core)) eqn:Hhas.
  - now apply keys_assign_present.
  - now apply keys_assign_absent.
Qed.

End WithEnvironment.

(** X17. Every tag that the list comprehension yields is trimmed: it has
    no whitespace at either end. *)
Theorem parse_tags_trimmed (line tag : string) :
  In tag (parse_tags line) -> strip tag = tag.
Proof.
  unfold parse_tags. intros Hin.
  apply in_map_iff in Hin as [piece [<- _]]. apply strip_strip.
Qed.

(** X18. No tag holds a comma. *)
Theorem parse_tags_no_comma (line tag : string) :
  In tag (parse_tags line) -> mentions "," tag = false.
Proof.
  unfold parse_tags. intros Hin.
  apply in_map_iff in Hin as [piece [<- Hin]].
  apply filter_In in Hin as [Hin _].
  unfold strip. apply mentions_rstrip, mentions_lstrip.
  now apply split_pieces_clean with line.
Qed.

(** X20. The prompt leaves [core.tags] empty exactly when something was
    typed that, once trimmed, is made of commas only: a blank line, or a
    line such as [","]. *)
Theorem tags_of_line_empty (entered : string) :
  tags_of_line entered = NList []
  <-> entered <> "" /\ only_commas (strip entered) = true.
Proof.
  unfold tags_of_line, answer.
  destruct (String.eqb entered "") eqn:E.
  - apply String.eqb_eq in E. subst entered.
    split; [discriminate | intros [H _]; now destruct H].
  - apply String.eqb_neq in E. rewrite <- split_all_empty.
    unfold parse_tags. split.
    + intros [= H]. split; [exact E|].
      apply map_eq_nil in H. now apply map_eq_nil in H.
    + intros [_ H]. now rewrite H.
Qed.

(** A single run without tags asks once. *)
Lemma enforce_tags_prompt_count_witness :
  lookup "core" Examples.untagged_config
  = Some (NDict [("seed", NInt 42); ("tags", NList [])])
  /\ count_prompts
       (trace (enforce_tags Examples.any_file Examples.single_run_job "a,b"
                            false Examples.untagged_config))
     = 1.
Proof.
  split; [reflexivity|].
  exact (enforce_tags_prompt_count
           Examples.any_file Examples.single_run_job "a,b" false
           Examples.untagged_config [("seed", NInt 42); ("tags", NList [])]
           eq_refl).
Defined.

(** The config of the examples has no top-level [tags]. *)
Lemma enforce_tags_log_line_witness :
  (lookup "core" Examples.untagged_config
   = Some (NDict [("seed", NInt 42); ("tags", NList [])])
   /\ lookup "tags" Examples.untagged_config = None)
  /\ ending (enforce_tags Examples.any_file Examples.single_run_job "a,b"
                          true Examples.untagged_config)
     = Raise (AttributeError "tags").
Proof.
  split; [split; reflexivity|].
  rewrite (enforce_tags_log_line
             Examples.any_file Examples.single_run_job "a,b" true
             Examples.untagged_config [("seed", NInt 42); ("tags", NList [])]
             eq_refl eq_refl eq_refl eq_refl).
  reflexivity.
Defined.

(** With a top-level [tags] field the run goes through and saves. *)
Lemma enforce_tags_interactive_run_witness :
  (lookup "core" Examples.untagged_config_with_tags
   = Some (NDict [("seed", NInt 42); ("tags", NList [])])
   /\ lookup "tags" Examples.untagged_config_with_tags
      = Some (NList [NStr "legacy"])
   /\ readable (NList [NStr "legacy"]) = true
   /\ output_file Examples.any_file Examples.untagged_config_with_tags
                  "tags.log"
      = Some (Path "logs/runs/today" "tags.log"))
  /\ trace (enforce_tags Examples.any_file Examples.single_run_job "a,b"
                         true Examples.untagged_config_with_tags)
     = [Log Warning
            [Lit "No tags provided in config. Prompting user to input tags..."];
        Ask "Enter a list of comma separated tags" "dev";
        Log Info [Lit "Tags: "; Fmt (NList [NStr "legacy"])];
        PrintToFile (Path "logs/runs/today" "tags.log")
                    (Value (NList [NStr "a"; NStr "b"]))].
Proof.
  split; [repeat split|].
  rewrite (proj2 (enforce_tags_interactive_run
                    Examples.any_file Examples.single_run_job "a,b" true
                    Examples.untagged_config_with_tags
                    [("seed", NInt 42); ("tags", NList [])]
                    (NList [NStr "legacy"])
                    eq_refl eq_refl eq_refl eq_refl eq_refl)
                 eq_refl (Path "logs/runs/today" "tags.log") eq_refl).
  reflexivity.
Defined.


(** A single run that leaves two tags, then a job of a multirun. *)
Lemma enforce_tags_again_witness :
  (lookup "core" Examples.untagged_config_with_tags
   = Some (NDict [("seed", NInt 42); ("tags", NList [])])
   /\ parse_tags (answer "a,b" "dev") <> [])
  /\ ending
       (enforce_tags Examples.any_file Examples.multirun_job "" false
          (final_config
             (enforce_tags Examples.any_file Examples.single_run_job "a,b"
                           false Examples.untagged_config_with_tags)))
     = Return tt.
Proof.
  split; [split; [reflexivity | discriminate]|].
  pose proof (enforce_tags_again
                Examples.any_file Examples.single_run_job "a,b" false
                Examples.untagged_config_with_tags
                [("seed", NInt 42); ("tags", NList [])]
                Examples.any_file Examples.multirun_job ""
                eq_refl eq_refl eq_refl) as H.
  cbv zeta in H. rewrite H; [reflexivity | discriminate].
Defined.

(** A config with its paths only. *)
Lemma enforce_tags_without_core_witness :
  lookup "core" [("paths", NDict [("hydra_output_dir", NStr "logs")])] = None
  /\ enforce_tags Examples.any_file Examples.single_run_job "a,b" true
                  [("paths", NDict [("hydra_output_dir", NStr "logs")])]
     = ([("paths", NDict [("hydra_output_dir", NStr "logs")])],
        ([], Raise (AttributeError "get"))).
Proof.
  split; [reflexivity|].
  apply (enforce_tags_without_core
           Examples.any_file Examples.single_run_job "a,b" true
           [("paths", NDict [("hydra_output_dir", NStr "logs")])]).
  left. reflexivity.
Defined.

(** A [core] section without [tags]: the field comes last. *)
Lemma enforce_tags_core_order_witness :
  lookup "core" [("core", NDict [("seed", NInt 42); ("name", NStr "run")])]
  = Some (NDict [("seed", NInt 42); ("name", NStr "run")])
  /\ core_keys
       (final_config
          (enforce_tags Examples.any_file Examples.single_run_job "a,b" false
             [("core", NDict [("seed", NInt 42); ("name", NStr "run")])]))
     = ["seed"; "name"; "tags"].
Proof.
  split; [reflexivity|].
  exact (enforce_tags_core_order
           Examples.any_file Examples.single_run_job "a,b" false
           [("core", NDict [("seed", NInt 42); ("name", NStr "run")])]
           [("seed", NInt 42); ("name", NStr "run")]
           eq_refl eq_refl eq_refl).
Defined.

(** The second tag of the line of the examples. *)
Lemma parse_tags_trimmed_witness :
  In "b" (parse_tags "a, b ,,c") /\ strip "b" = "b".
Proof.
  assert (Hin : In "b" (parse_tags "a, b ,,c")) by (simpl; auto).
  split; [exact Hin|].
  exact (parse_tags_trimmed "a, b ,,c" "b" Hin).
Defined.

Lemma parse_tags_no_comma_witness :
  In "b" (parse_tags "a, b ,,c") /\ mentions "," "b" = false.
Proof.
  assert (Hin : In "b" (parse_tags "a, b ,,c")) by (simpl; auto).
  split; [exact Hin|].
  exact (parse_tags_no_comma "a, b ,,c" "b" Hin).
Defined.

End TagMore.

